(** * Poco::Data::Column — a shallow embedding of Data/include/Poco/Data/Column.h

    The header defines the class template [Column<T, C>] and two
    specialisations, [Column<bool, std::vector<bool> >] and
    [Column<T, std::list<T> >].  A column holds a [MetaColumn] by value and a
    [Poco::SharedPtr] to its backing container; copies of a column share the
    container.  The embedding keeps that sharing: containers live in a store
    indexed by addresses, and a column holds an address.

    Conventions.
    - [std::size_t] is 64 bits wide and [int] 32 bits wide (LP64); both are
      carried by [Z], with the unsigned wrap-around written out.
    - A container (vector, deque, vector<bool>, list) is the [list] of its
      elements in order.
    - A method that can throw returns a [result]. *)

From Stdlib Require Import ZArith Lia.
From stdpp Require Import base option list strings gmap.

Open Scope Z_scope.

(** ** Machine integers *)

Module Platform.

(** [std::size_t] values are taken modulo [2^64]. *)
Definition SIZE_MOD : Z := 18446744073709551616.

Definition is_size_t (z : Z) : Prop := 0 <= z < SIZE_MOD.

(** Conversion of an integer to [std::size_t]. *)
Definition to_size_t (z : Z) : Z := z mod SIZE_MOD.

(** Unsigned subtraction [a - b] on [std::size_t]. *)
Definition size_t_sub (a b : Z) : Z := to_size_t (a - b).

(** Largest value of an [int]. *)
Definition INT_MAX : Z := 2147483647.

End Platform.

(** ** Exceptions and results *)

(** The two exception classes that occur in the header: the standard
    library's [std::out_of_range], thrown by [at], and Poco's
    [RangeException].  Each carries its message. *)
Inductive exn : Type :=
  | std_out_of_range (what : string)
  | RangeException (msg : string).

(** Outcome of a call: a returned value, a thrown exception, or behaviour
    the language leaves undefined (overflow of a signed counter). *)
Inductive result (A : Type) : Type :=
  | Ok (a : A)
  | Throw (e : exn)
  | Undefined.

Arguments Ok {A} a.
Arguments Throw {A} e.
Arguments Undefined {A}.

Definition is_RangeException {A} (r : result A) : Prop :=
  exists msg, r = Throw (RangeException msg).

(** The handler shared by the vector-like variants:
    [catch (std::out_of_range& ex) { throw RangeException(ex.what()); }]. *)
Definition catch_out_of_range {A} (r : result A) : result A :=
  match r with
  | Throw (std_out_of_range what) => Throw (RangeException what)
  | _ => r
  end.

(** Two outcomes agree when both return the same value or both throw a
    [RangeException]; the texts of the messages are not compared. *)
Definition agree {A} (r1 r2 : result A) : Prop :=
  match r1, r2 with
  | Ok a, Ok b => a = b
  | Throw (RangeException _), Throw (RangeException _) => True
  | _, _ => False
  end.

Definition result_bind {A B} (r : result A) (k : A -> result B) : result B :=
  match r with
  | Ok a => k a
  | Throw e => Throw e
  | Undefined => Undefined
  end.

(** ** The standard containers used by the header *)

Module Std.

(** [c.size()]. *)
Definition size {A} (c : list A) : Z := Z.of_nat (length c).

(** Message texts of the bounds-check failures.  They are chosen by the
    standard library implementation; these are the texts of libstdc++'s
    range checks.  No property below depends on the texts. *)
Definition vector_what : string := "vector::_M_range_check".
Definition vector_bool_what : string := "vector<bool>::_M_range_check".
Definition deque_what : string := "deque::_M_range_check".

(** [c.at(n)] of a random-access container: throws [std::out_of_range]
    when [n >= size()], otherwise yields element [n]. *)
Definition at_ {A} (what : string) (c : list A) (n : Z) : result A :=
  if size c <=? n then Throw (std_out_of_range what)
  else match c !! Z.to_nat n with
       | Some x => Ok x
       | None => Throw (std_out_of_range what)
       end.

(** [c.resize(n)] for a container of [bool]: new elements are
    value-initialised, that is [false]. *)
Definition resize_bool (n : Z) (c : list bool) : list bool :=
  resize (Z.to_nat n) false c.

End Std.

(** ** Shared storage *)

(** Address of a container object. *)
Definition addr := positive.

(** The containers alive in memory.  A [Poco::SharedPtr<C>] is the address
    of the container it points to; its reference count keeps the container
    alive for as long as any column holds it, so dereferencing the pointer
    of a column is total. *)
Abbreviation store A := (gmap addr (list A)).

(** [*p] *)
Definition deref {A} (h : store A) (p : addr) : list A := h !!! p.

(** Assignment through [*p]. *)
Definition write {A} (h : store A) (p : addr) (c : list A) : store A :=
  <[p := c]> h.

(** ** MetaColumn *)

(** Modelled from the spec: the class [MetaColumn] (Poco/Data/MetaColumn.h)
    is not part of this header.  It is a value record with a name, a length,
    a precision, a position and a data type tag; the tag is kept as the
    ordinal of the enumerator. *)
Definition ColumnDataType := N.

Record MetaColumn : Type := mkMetaColumn {
  mc_name : string;
  mc_length : Z;
  mc_precision : Z;
  mc_position : Z;
  mc_type : ColumnDataType
}.

(** Modelled from the spec: the macro [poco_check_ptr] (Poco/Bugcheck.h) is
    not part of this header.  A null pointer is a precondition violation and
    no object is constructed; a non-null pointer passes. *)
Definition poco_check_ptr (p : option addr) : option addr := p.

(** ** The primary template [Column<T, C>] *)

Module Generic.
Section WithT.
Context {T : Type}.

Record Column : Type := mkColumn {
  _metaColumn : MetaColumn;
  _pData : addr
}.

(** [Column(const MetaColumn& metaColumn, C* pData)] *)
Definition Column_new (metaColumn : MetaColumn) (pData : option addr)
  : option Column :=
  match poco_check_ptr pData with
  | Some p => Some (mkColumn metaColumn p)
  | None => None
  end.

(** [Column(const Column& col)] *)
Definition Column_copy (col : Column) : Column :=
  mkColumn (_metaColumn col) (_pData col).

(** [void swap(Column& other)]: the pair is ([*this], [other]) after the
    call. *)
Definition swap (this other : Column) : Column * Column :=
  (mkColumn (_metaColumn other) (_pData other),
   mkColumn (_metaColumn this) (_pData this)).

(** [Column& operator = (const Column& col)]: [*this] after the call. *)
Definition assign (this col : Column) : Column :=
  let tmp := Column_copy col in
  fst (swap this tmp).

(** [Container& data()]: the container the returned reference denotes. *)
Definition data (h : store T) (this : Column) : list T :=
  deref h (_pData this).

(** A caller updating the container through the reference that [data()]
    returns: [f] is the update applied to the container. *)
Definition data_update (f : list T -> list T) (h : store T) (this : Column)
  : store T :=
  write h (_pData this) (f (data h this)).

(** [const T& value(std::size_t row) const].  The message is that of the
    default container, [std::vector<T>]. *)
Definition value (h : store T) (this : Column) (row : Z) : result T :=
  catch_out_of_range (Std.at_ Std.vector_what (deref h (_pData this)) row).

(** [const T& operator [] (std::size_t row) const] *)
Definition operator_index (h : store T) (this : Column) (row : Z) : result T :=
  value h this row.

(** [Size rowCount() const] *)
Definition rowCount (h : store T) (this : Column) : Z :=
  Std.size (deref h (_pData this)).

(** [void reset()]: [C().swap( *_pData)] leaves the empty container in the
    object [_pData] points to. *)
Definition reset (h : store T) (this : Column) : store T :=
  write h (_pData this) [].

Definition name (this : Column) : string := mc_name (_metaColumn this).
Definition length (this : Column) : Z := mc_length (_metaColumn this).
Definition precision (this : Column) : Z := mc_precision (_metaColumn this).
Definition position (this : Column) : Z := mc_position (_metaColumn this).
Definition type (this : Column) : ColumnDataType := mc_type (_metaColumn this).

(** [begin()] .. [end()]: the elements the iterator range runs over. *)
Definition elements (h : store T) (this : Column) : list T :=
  deref h (_pData this).

(** Calls on a column, and the state (store and column object) each one
    leaves.  [value], [operator[]] and [rowCount] are [const] and the class
    has no [mutable] member, so they leave the state as it is. *)
Inductive call : Type :=
  | CallValue (row : Z)
  | CallIndex (row : Z)
  | CallRowCount
  | CallReset
  | CallData (f : list T -> list T).

Definition exec (k : call) (s : store T * Column) : store T * Column :=
  match k with
  | CallValue _ | CallIndex _ | CallRowCount => s
  | CallReset => (reset (fst s) (snd s), snd s)
  | CallData f => (data_update f (fst s) (snd s), snd s)
  end.

(** A sequence of calls, executed from left to right. *)
Definition run (ks : list call) (s : store T * Column) : store T * Column :=
  fold_left (fun s k => exec k s) ks s.

(** [c'] was made from [c] by the copy constructor or by assignment to some
    column [this]. *)
Inductive copy_of (c : Column) : Column -> Prop :=
  | by_copy : copy_of c (Column_copy c)
  | by_assign (this : Column) : copy_of c (assign this c).

End WithT.
Arguments Column : clear implicits.
End Generic.

(** ** The specialisation [Column<bool, std::vector<bool> >] *)

Module BoolVector.

(** The statement [return _deque.at(row) = _pData->at(row);] evaluates two
    operands that can both throw.  The language fixes their order only from
    C++17 on (right operand first); before that either order is allowed.
    The order is a parameter of [value]. *)
Inductive operand_order : Type :=
  | RightOperandFirst
  | LeftOperandFirst.

Record Column : Type := mkColumn {
  _metaColumn : MetaColumn;
  _pData : addr;
  _deque : list bool           (* [mutable std::deque<bool> _deque] *)
}.

(** [Column(const MetaColumn& metaColumn, Container* pData)] *)
Definition Column_new (metaColumn : MetaColumn) (pData : option addr)
    (h : store bool) : option Column :=
  match poco_check_ptr pData with
  | Some p => Some (mkColumn metaColumn p (deref h p))
  | None => None
  end.

(** [Column(const Column& col)]: the new shadow deque is filled from the
    container, not from [col._deque]. *)
Definition Column_copy (h : store bool) (col : Column) : Column :=
  mkColumn (_metaColumn col) (_pData col) (deref h (_pData col)).

(** [void swap(Column& other)] *)
Definition swap (this other : Column) : Column * Column :=
  (mkColumn (_metaColumn other) (_pData other) (_deque other),
   mkColumn (_metaColumn this) (_pData this) (_deque this)).

(** [Column& operator = (const Column& col)] *)
Definition assign (h : store bool) (this col : Column) : Column :=
  let tmp := Column_copy h col in
  fst (swap this tmp).

(** [Container& data()] *)
Definition data (h : store bool) (this : Column) : list bool :=
  deref h (_pData this).

Definition data_update (f : list bool -> list bool) (h : store bool)
    (this : Column) : store bool :=
  write h (_pData this) (f (data h this)).

(** The first statement of [value]:
    [if (_deque.size() < _pData->size()) _deque.resize(_pData->size());] *)
Definition sync (h : store bool) (this : Column) : Column :=
  if Std.size (_deque this) <? Std.size (deref h (_pData this))
  then mkColumn (_metaColumn this) (_pData this)
         (Std.resize_bool (Std.size (deref h (_pData this))) (_deque this))
  else this.

(** The operands of [_deque.at(row) = _pData->at(row)]: the result is the
    value to be stored, once both [at] calls have returned. *)
Definition operands (o : operand_order) (h : store bool) (this : Column)
    (row : Z) : result bool :=
  match o with
  | RightOperandFirst =>
      result_bind (Std.at_ Std.vector_bool_what (deref h (_pData this)) row) (fun b =>
      result_bind (Std.at_ Std.deque_what (_deque this) row) (fun _ => Ok b))
  | LeftOperandFirst =>
      result_bind (Std.at_ Std.deque_what (_deque this) row) (fun _ =>
      result_bind (Std.at_ Std.vector_bool_what (deref h (_pData this)) row) (fun b => Ok b))
  end.

(** [const bool& value(std::size_t row) const]: the outcome together with
    the column object after the call ([_deque] is [mutable]).  The returned
    reference denotes the slot of [_deque] that was just written; the
    outcome carries what that slot holds. *)
Definition value (o : operand_order) (h : store bool) (this : Column)
    (row : Z) : result bool * Column :=
  let this1 := sync h this in
  match catch_out_of_range (operands o h this1 row) with
  | Ok b =>
      let d := <[Z.to_nat row := b]> (_deque this1) in
      (match d !! Z.to_nat row with Some x => Ok x | None => Undefined end,
       mkColumn (_metaColumn this1) (_pData this1) d)
  | Throw e => (Throw e, this1)
  | Undefined => (Undefined, this1)
  end.

(** [const bool& operator [] (std::size_t row) const] *)
Definition operator_index (o : operand_order) (h : store bool) (this : Column)
    (row : Z) : result bool * Column :=
  value o h this row.

(** [Size rowCount() const] *)
Definition rowCount (h : store bool) (this : Column) : Z :=
  Std.size (deref h (_pData this)).

(** [void reset()]: the store and the column object after the call. *)
Definition reset (h : store bool) (this : Column) : store bool * Column :=
  (write h (_pData this) [],
   mkColumn (_metaColumn this) (_pData this) []).

Definition name (this : Column) : string := mc_name (_metaColumn this).
Definition length (this : Column) : Z := mc_length (_metaColumn this).
Definition precision (this : Column) : Z := mc_precision (_metaColumn this).
Definition position (this : Column) : Z := mc_position (_metaColumn this).
Definition type (this : Column) : ColumnDataType := mc_type (_metaColumn this).

(** [begin()] .. [end()]: the elements the iterator range runs over. *)
Definition elements (h : store bool) (this : Column) : list bool :=
  deref h (_pData this).

(** Calls on a column and the state each one leaves.  [value] and
    [operator[]] are [const] but write the [mutable] shadow deque. *)
Inductive call : Type :=
  | CallValue (row : Z)
  | CallIndex (row : Z)
  | CallRowCount
  | CallReset
  | CallData (f : list bool -> list bool).

Definition exec (o : operand_order) (k : call) (s : store bool * Column)
  : store bool * Column :=
  match k with
  | CallValue row => (fst s, snd (value o (fst s) (snd s) row))
  | CallIndex row => (fst s, snd (operator_index o (fst s) (snd s) row))
  | CallRowCount => s
  | CallReset => reset (fst s) (snd s)
  | CallData f => (data_update f (fst s) (snd s), snd s)
  end.

(** Reading a sequence of rows one after the other on the same column
    object: the outcomes in order, and the column after the last read. *)
Fixpoint read_rows (o : operand_order) (h : store bool) (this : Column)
    (rows : list Z) : list (result bool) * Column :=
  match rows with
  | [] => ([], this)
  | row :: rows' =>
      let (r, this1) := value o h this row in
      let (rs, this2) := read_rows o h this1 rows' in
      (r :: rs, this2)
  end.

(** A sequence of calls, executed from left to right. *)
Definition run (o : operand_order) (ks : list call) (s : store bool * Column)
  : store bool * Column :=
  fold_left (fun s k => exec o k s) ks s.

(** [c'] was made from [c], in store [h], by the copy constructor or by
    assignment to some column [this]. *)
Inductive copy_of (h : store bool) (c : Column) : Column -> Prop :=
  | by_copy : copy_of h c (Column_copy h c)
  | by_assign (this : Column) : copy_of h c (assign h this c).

(** Two outcomes are the same up to the text of the exception message. *)
Definition same_outcome (r1 r2 : result bool) : Prop :=
  match r1, r2 with
  | Ok a, Ok b => a = b
  | Throw (RangeException _), Throw (RangeException _) => True
  | _, _ => False
  end.

(** The class comment calls [_deque] a companion "kept in sync" with the
    container.  [covers] is the part of that which [value] relies on: the
    deque has a slot for every element of the container. *)
Definition covers (s : store bool * Column) : Prop :=
  Std.size (deref (fst s) (_pData (snd s))) <= Std.size (_deque (snd s)).

(** Calls that hand the container to the caller for update. *)
Definition is_data_call (k : call) : bool :=
  match k with
  | CallData _ => true
  | _ => false
  end.

End BoolVector.

(** ** The specialisation [Column<T, std::list<T> >] *)

Module ListColumn.
Section WithT.
Context {T : Type}.

Record Column : Type := mkColumn {
  _metaColumn : MetaColumn;
  _pData : addr
}.

(** [Column(const MetaColumn& metaColumn, std::list<T>* pData)] *)
Definition Column_new (metaColumn : MetaColumn) (pData : option addr)
  : option Column :=
  match poco_check_ptr pData with
  | Some p => Some (mkColumn metaColumn p)
  | None => None
  end.

(** [Column(const Column& col)] *)
Definition Column_copy (col : Column) : Column :=
  mkColumn (_metaColumn col) (_pData col).

(** [void swap(Column& other)] *)
Definition swap (this other : Column) : Column * Column :=
  (mkColumn (_metaColumn other) (_pData other),
   mkColumn (_metaColumn this) (_pData this)).

(** [Column& operator = (const Column& col)] *)
Definition assign (this col : Column) : Column :=
  let tmp := Column_copy col in
  fst (swap this tmp).

(** [List& data()] *)
Definition data (h : store T) (this : Column) : list T :=
  deref h (_pData this).

Definition data_update (f : list T -> list T) (h : store T) (this : Column)
  : store T :=
  write h (_pData this) (f (data h this)).

(** How a traversal loop of [value] ends. *)
Inductive walk_result : Type :=
  | Found (x : T)       (* [return *it] *)
  | Exhausted           (* [it == end] *)
  | Overflow.           (* [++i] on [i == INT_MAX] *)

(** [for (int i = i0; it != end; ++it, ++i) if (i == row) return *it;]
    over the elements [l] that remain from [it] to [end].  In [i == row]
    the [int] is converted to [std::size_t]. *)
Fixpoint walk (row : Z) (i : Z) (l : list T) : walk_result :=
  match l with
  | [] => Exhausted
  | x :: l' =>
      if Platform.to_size_t i =? row then Found x
      else if i <? Platform.INT_MAX then walk row (i + 1) l'
      else Overflow
  end.

(** What follows a loop that did not return. *)
Definition after_walk (w : walk_result) : result T :=
  match w with
  | Found x => Ok x
  | Exhausted => Throw (RangeException "Invalid row number.")
  | Overflow => Undefined
  end.

(** [const T& value(std::size_t row) const].  The cast in
    [(std::size_t) (_pData->size() / 2)] is from [std::size_t] to itself;
    [_pData->size() - row] is unsigned. *)
Definition value (h : store T) (this : Column) (row : Z) : result T :=
  let l := deref h (_pData this) in
  if row <=? Std.size l / 2
  then after_walk (walk row 0 l)
  else
    let row := Platform.size_t_sub (Std.size l) row in
    after_walk (walk row 1 (reverse l)).

(** [const T& operator [] (std::size_t row) const] *)
Definition operator_index (h : store T) (this : Column) (row : Z) : result T :=
  value h this row.

(** [Size rowCount() const] *)
Definition rowCount (h : store T) (this : Column) : Z :=
  Std.size (deref h (_pData this)).

(** [void reset()]: [_pData->clear()]. *)
Definition reset (h : store T) (this : Column) : store T :=
  write h (_pData this) [].

Definition name (this : Column) : string := mc_name (_metaColumn this).
Definition length (this : Column) : Z := mc_length (_metaColumn this).
Definition precision (this : Column) : Z := mc_precision (_metaColumn this).
Definition position (this : Column) : Z := mc_position (_metaColumn this).
Definition type (this : Column) : ColumnDataType := mc_type (_metaColumn this).

(** [begin()] .. [end()]: the elements the iterator range runs over. *)
Definition elements (h : store T) (this : Column) : list T :=
  deref h (_pData this).

(** Calls on a column and the state each one leaves; [value],
    [operator[]] and [rowCount] are [const] and there is no [mutable]
    member. *)
Inductive call : Type :=
  | CallValue (row : Z)
  | CallIndex (row : Z)
  | CallRowCount
  | CallReset
  | CallData (f : list T -> list T).

Definition exec (k : call) (s : store T * Column) : store T * Column :=
  match k with
  | CallValue _ | CallIndex _ | CallRowCount => s
  | CallReset => (reset (fst s) (snd s), snd s)
  | CallData f => (data_update f (fst s) (snd s), snd s)
  end.

(** The counter of the traversal loops stays within [int] when the list has
    fewer than [INT_MAX] elements. *)
Definition counter_fits (l : list T) : Prop := Std.size l < Platform.INT_MAX.

(** A sequence of calls, executed from left to right. *)
Definition run (ks : list call) (s : store T * Column) : store T * Column :=
  fold_left (fun s k => exec k s) ks s.

(** [c'] was made from [c] by the copy constructor or by assignment to some
    column [this]. *)
Inductive copy_of (c : Column) : Column -> Prop :=
  | by_copy : copy_of c (Column_copy c)
  | by_assign (this : Column) : copy_of c (assign this c).

(** The number of times the body [if (i == row) return *it;] of a traversal
    loop of [value] is executed: [walk] with a count of the elements it
    visits in place of its result. *)
Fixpoint walk_steps (row : Z) (i : Z) (l : list T) : nat :=
  match l with
  | [] => 0
  | x :: l' =>
      if Platform.to_size_t i =? row then 1
      else if i <? Platform.INT_MAX then S (walk_steps row (i + 1) l')
      else 1
  end.

(** The number of elements [value(row)] visits, by the same branch as
    [value]. *)
Definition value_steps (h : store T) (this : Column) (row : Z) : nat :=
  let l := deref h (_pData this) in
  if row <=? Std.size l / 2
  then walk_steps row 0 l
  else
    let row := Platform.size_t_sub (Std.size l) row in
    walk_steps row 1 (reverse l).

End WithT.
Arguments walk_result : clear implicits.
End ListColumn.

(** ** Concrete columns *)

(** The column of the specification's scenario, [MetaColumn{name="age",
    type=INTEGER, position=2}] over [[10, 20, 30]], and small columns of the
    other two kinds.  Address 1 holds the integers, address 2 the booleans;
    address 3 holds a five-element list. *)
Module Examples.

Definition age : MetaColumn := mkMetaColumn "age" 4 0 2 6%N.
Definition flag : MetaColumn := mkMetaColumn "flag" 1 0 3 1%N.

Definition ints : store Z :=
  {[ 1%positive := [10; 20; 30]; 3%positive := [1; 2; 3; 4; 5] ]}.
Definition bools : store bool :=
  {[ 2%positive := [true; false; true] ]}.

Definition age_vector : Generic.Column := Generic.mkColumn age 1%positive.
Definition age_list : ListColumn.Column := ListColumn.mkColumn age 1%positive.
Definition five_list : ListColumn.Column := ListColumn.mkColumn age 3%positive.

Definition flag_vector : Generic.Column := Generic.mkColumn flag 2%positive.
Definition flag_list : ListColumn.Column := ListColumn.mkColumn flag 2%positive.
Definition flag_packed : BoolVector.Column :=
  BoolVector.mkColumn flag 2%positive [true; false; true].
(** A boolean column whose shadow deque is behind its container. *)
Definition flag_stale : BoolVector.Column :=
  BoolVector.mkColumn flag 2%positive [false].

(** A list of [INT_MAX] elements at address 4.  It is never evaluated. *)
Definition long_list : list Z := replicate (Z.to_nat Platform.INT_MAX) 0.
Definition long_store : store Z := {[ 4%positive := long_list ]}.
Definition long_column : ListColumn.Column := ListColumn.mkColumn age 4%positive.

(** A list of [2 * INT_MAX + 4] elements at address 5, so that rows beyond
    [INT_MAX] lie in its first half.  It is never evaluated. *)
Definition huge_list : list Z := replicate (Z.to_nat 4294967298) 0.
Definition huge_store : store Z := {[ 5%positive := huge_list ]}.
Definition huge_column : ListColumn.Column := ListColumn.mkColumn age 5%positive.

End Examples.

(** * Properties *)

(** ** Machine integers *)

Lemma to_size_t_small z : Platform.is_size_t z -> Platform.to_size_t z = z.
Proof. intros Hz. apply Z.mod_small. exact Hz. Qed.

Lemma size_t_sub_no_borrow a b :
  0 <= b <= a -> a < Platform.SIZE_MOD -> Platform.size_t_sub a b = a - b.
Proof.
  intros Hb Ha. unfold Platform.size_t_sub. apply to_size_t_small.
  unfold Platform.is_size_t. lia.
Qed.

(** When [a < b] the unsigned difference wraps to [a - b + 2^64]. *)
Lemma size_t_sub_borrow a b :
  0 <= a < b -> b < Platform.SIZE_MOD ->
  Platform.size_t_sub a b = a - b + Platform.SIZE_MOD.
Proof.
  intros Ha Hb. unfold Platform.size_t_sub, Platform.to_size_t.
  symmetry. apply (Z.mod_unique_pos _ _ (-1)); lia.
Qed.

Lemma INT_MAX_is_size_t z : 0 <= z <= Platform.INT_MAX -> Platform.is_size_t z.
Proof. unfold Platform.is_size_t, Platform.INT_MAX, Platform.SIZE_MOD. lia. Qed.

(** ** Results *)

Lemma is_RangeException_not_native {A} (r : result A) :
  is_RangeException r -> forall what, r <> Throw (std_out_of_range what).
Proof. intros [msg ->] what. discriminate. Qed.

Lemma catch_out_of_range_Ok {A} (r : result A) x :
  r = Ok x -> catch_out_of_range r = Ok x.
Proof. intros ->. reflexivity. Qed.

Lemma catch_out_of_range_native {A} what :
  catch_out_of_range (A := A) (Throw (std_out_of_range what))
  = Throw (RangeException what).
Proof. reflexivity. Qed.

(** The handler never lets a [std::out_of_range] through. *)
Lemma catch_out_of_range_not_native {A} (r : result A) what :
  catch_out_of_range r <> Throw (std_out_of_range what).
Proof. destruct r as [a | [w | m] | ]; discriminate. Qed.

(** ** Containers *)

Lemma size_nonneg {A} (c : list A) : 0 <= Std.size c.
Proof. unfold Std.size. lia. Qed.

Lemma size_nil {A} : Std.size (@nil A) = 0.
Proof. reflexivity. Qed.

Lemma size_cons {A} (x : A) c : Std.size (x :: c) = Std.size c + 1.
Proof. unfold Std.size. simpl. lia. Qed.

Lemma size_reverse {A} (c : list A) : Std.size (reverse c) = Std.size c.
Proof. unfold Std.size. now rewrite length_reverse. Qed.

Lemma lookup_in_range {A} (c : list A) n :
  0 <= n < Std.size c -> exists x, c !! Z.to_nat n = Some x.
Proof.
  intros Hn. apply lookup_lt_is_Some. unfold Std.size in Hn. lia.
Qed.

Lemma at_in_range {A} what (c : list A) n x :
  0 <= n -> c !! Z.to_nat n = Some x -> Std.at_ what c n = Ok x.
Proof.
  intros Hn Hx. unfold Std.at_. rewrite Hx.
  apply lookup_lt_Some in Hx.
  destruct (Z.leb_spec (Std.size c) n) as [Hle | Hlt]; [|reflexivity].
  unfold Std.size in Hle. lia.
Qed.

Lemma at_out_of_range {A} what (c : list A) n :
  Std.size c <= n -> Std.at_ what c n = Throw (std_out_of_range what).
Proof.
  intros Hn. unfold Std.at_.
  destruct (Z.leb_spec (Std.size c) n); [reflexivity | lia].
Qed.

(** [at] either returns an element or throws [std::out_of_range]. *)
Lemma at_cases {A} what (c : list A) n :
  (exists x, Std.at_ what c n = Ok x) \/
  Std.at_ what c n = Throw (std_out_of_range what).
Proof.
  unfold Std.at_. destruct (Std.size c <=? n); [now right|].
  destruct (c !! Z.to_nat n) as [x|]; [left; now exists x | now right].
Qed.

Lemma at_nil {A} what n :
  Std.at_ what (@nil A) n = Throw (std_out_of_range what).
Proof. unfold Std.at_. now destruct (Std.size [] <=? n). Qed.

(** ** Storage *)

Lemma deref_write_same {A} (h : store A) p c : deref (write h p c) p = c.
Proof. unfold deref, write. apply lookup_total_insert_eq. Qed.

Lemma deref_write_other {A} (h : store A) p q c :
  p <> q -> deref (write h p c) q = deref h q.
Proof. intros Hpq. unfold deref, write. now apply lookup_total_insert_ne. Qed.

(** ** The primary template *)

Section GenericFacts.
Context {T : Type}.
Implicit Types (h : store T) (c : Generic.Column) (row : Z).

Lemma Generic_value_in_range h c row x :
  0 <= row -> deref h (Generic._pData c) !! Z.to_nat row = Some x ->
  Generic.value h c row = Ok x.
Proof.
  intros Hrow Hx. unfold Generic.value.
  now rewrite (at_in_range _ _ _ x Hrow Hx).
Qed.

Lemma Generic_value_out_of_range h c row :
  Generic.rowCount h c <= row ->
  Generic.value h c row = Throw (RangeException Std.vector_what).
Proof.
  intros Hrow. unfold Generic.value.
  now rewrite at_out_of_range.
Qed.

Lemma Generic_value_not_native h c row what :
  Generic.value h c row <> Throw (std_out_of_range what).
Proof. apply catch_out_of_range_not_native. Qed.

Lemma Generic_value_empty h c row :
  deref h (Generic._pData c) = [] -> is_RangeException (Generic.value h c row).
Proof.
  intros E. unfold Generic.value. rewrite E, at_nil. now eexists.
Qed.

Lemma Generic_copy_of_pData c c' :
  Generic.copy_of c c' -> Generic._pData c' = Generic._pData c.
Proof. now intros [|this]. Qed.

Lemma Generic_copy_of_meta c c' :
  Generic.copy_of c c' -> Generic._metaColumn c' = Generic._metaColumn c.
Proof. now intros [|this]. Qed.

(** [value] and [rowCount] see a column only through its pointer. *)
Lemma Generic_value_pData h c c' row :
  Generic._pData c' = Generic._pData c ->
  Generic.value h c' row = Generic.value h c row.
Proof. intros E. unfold Generic.value. now rewrite E. Qed.

Lemma Generic_rowCount_pData h c c' :
  Generic._pData c' = Generic._pData c ->
  Generic.rowCount h c' = Generic.rowCount h c.
Proof. intros E. unfold Generic.rowCount. now rewrite E. Qed.

Lemma Generic_run_snd ks : forall (s : store T * Generic.Column),
  snd (Generic.run ks s) = snd s.
Proof.
  unfold Generic.run.
  induction ks as [|k ks IH]; intros s; [reflexivity|].
  simpl. rewrite IH. now destruct k.
Qed.

End GenericFacts.

(** ** The list specialisation *)

Section ListFacts.
Context {T : Type}.
Implicit Types (h : store T) (c : ListColumn.Column) (l : list T) (row i : Z).

(** The loop returns element [row - i] of the remaining range when the
    counter can reach [row] before the range ends. *)
Lemma walk_found l : forall i row x,
  0 <= i -> i + Std.size l <= Platform.INT_MAX -> i <= row ->
  l !! Z.to_nat (row - i) = Some x ->
  ListColumn.walk row i l = ListColumn.Found x.
Proof.
  induction l as [|y l IH]; intros i row x Hi Hfit Hle Hx; [discriminate|].
  rewrite size_cons in Hfit. pose proof (size_nonneg l) as Hl.
  simpl. rewrite to_size_t_small by (apply INT_MAX_is_size_t; lia).
  destruct (Z.eqb_spec i row) as [-> | Hne].
  - rewrite Z.sub_diag in Hx. simpl in Hx. congruence.
  - destruct (Z.ltb_spec i Platform.INT_MAX) as [_ | Hge]; [|lia].
    apply IH; try lia.
    replace (Z.to_nat (row - i)) with (S (Z.to_nat (row - (i + 1)))) in Hx
      by lia.
    exact Hx.
Qed.

(** The loop runs off the end when [row] lies outside the counter's
    range [i, i + size). *)
Lemma walk_exhausted l : forall i row,
  0 <= i -> i + Std.size l <= Platform.INT_MAX ->
  row < i \/ i + Std.size l <= row ->
  ListColumn.walk row i l = ListColumn.Exhausted.
Proof.
  induction l as [|y l IH]; intros i row Hi Hfit Hout; [reflexivity|].
  rewrite size_cons in Hfit, Hout. pose proof (size_nonneg l) as Hl.
  simpl. rewrite to_size_t_small by (apply INT_MAX_is_size_t; lia).
  destruct (Z.eqb_spec i row) as [-> | Hne]; [lia|].
  destruct (Z.ltb_spec i Platform.INT_MAX) as [_ | Hge]; [|lia].
  apply IH; lia.
Qed.

Lemma walk_nil row i : ListColumn.walk (T := T) row i [] = ListColumn.Exhausted.
Proof. reflexivity. Qed.

(** Why the lemmas above bound the length: a row beyond [INT_MAX] cannot be
    reached by the [int] counter, which overflows on the way. *)
Lemma walk_overflow l : forall i row,
  0 <= i <= Platform.INT_MAX ->
  Platform.INT_MAX < row ->
  Platform.INT_MAX - i < Std.size l ->
  ListColumn.walk row i l = ListColumn.Overflow.
Proof.
  induction l as [|y l IH]; intros i row Hi Hrow Hlen.
  - rewrite size_nil in Hlen. lia.
  - rewrite size_cons in Hlen.
    simpl. rewrite to_size_t_small by (apply INT_MAX_is_size_t; lia).
    destruct (Z.eqb_spec i row) as [-> | Hne]; [lia|].
    destruct (Z.ltb_spec i Platform.INT_MAX) as [Hlt | Hge]; [|reflexivity].
    apply IH; lia.
Qed.

(** Element [row] seen from the back: it is number [size - row], counting
    from one, of the reversed range. *)
Lemma reverse_lookup_row l row x :
  0 <= row -> l !! Z.to_nat row = Some x ->
  reverse l !! Z.to_nat (Std.size l - row - 1) = Some x.
Proof.
  intros Hrow Hx. apply lookup_lt_Some in Hx as Hlt.
  rewrite reverse_lookup by (unfold Std.size; lia).
  rewrite <- Hx. f_equal. unfold Std.size. lia.
Qed.

End ListFacts.

Section ListValueFacts.
Context {T : Type}.
Implicit Types (h : store T) (c : ListColumn.Column) (l : list T) (row : Z).

(** A row in the first half is found by the forward loop. *)
Lemma forward_walk_found l row x :
  ListColumn.counter_fits l -> 0 <= row ->
  l !! Z.to_nat row = Some x ->
  ListColumn.walk row 0 l = ListColumn.Found x.
Proof.
  intros Hfit Hrow Hx. unfold ListColumn.counter_fits in Hfit.
  apply walk_found; try lia. now rewrite Z.sub_0_r.
Qed.

(** A valid row is found by the backward loop, which looks for
    [size - row] counting from one. *)
Lemma backward_walk_found l row x :
  ListColumn.counter_fits l -> 0 <= row ->
  l !! Z.to_nat row = Some x ->
  ListColumn.walk (Platform.size_t_sub (Std.size l) row) 1 (reverse l)
  = ListColumn.Found x.
Proof.
  intros Hfit Hrow Hx. unfold ListColumn.counter_fits in Hfit.
  apply lookup_lt_Some in Hx as Hlt.
  assert (row < Std.size l) as Hlt' by (unfold Std.size; lia).
  rewrite size_t_sub_no_borrow
    by (unfold Platform.INT_MAX, Platform.SIZE_MOD in *; lia).
  apply walk_found; rewrite ?size_reverse; try lia.
  exact (reverse_lookup_row l row x Hrow Hx).
Qed.

(** For a row at or past the end, the forward loop exhausts ... *)
Lemma forward_walk_exhausted l row :
  ListColumn.counter_fits l -> Std.size l <= row ->
  ListColumn.walk row 0 l = ListColumn.Exhausted.
Proof.
  intros Hfit Hrow. unfold ListColumn.counter_fits in Hfit.
  apply walk_exhausted; lia.
Qed.

(** ... and so does the backward loop: [size - row] is zero when
    [row = size] and wraps to more than [size] when [row > size]; the
    counter runs from one to [size]. *)
Lemma backward_walk_exhausted l row :
  ListColumn.counter_fits l -> Platform.is_size_t row -> Std.size l <= row ->
  ListColumn.walk (Platform.size_t_sub (Std.size l) row) 1 (reverse l)
  = ListColumn.Exhausted.
Proof.
  intros Hfit [Hrow0 Hrow1] Hrow. unfold ListColumn.counter_fits in Hfit.
  pose proof (size_nonneg l) as Hl.
  apply walk_exhausted; rewrite ?size_reverse; try lia.
  destruct (Z.eq_dec row (Std.size l)) as [-> | Hne].
  - left. rewrite size_t_sub_no_borrow by lia. lia.
  - right. rewrite size_t_sub_borrow by lia. lia.
Qed.

Lemma ListColumn_value_in_range h c row x :
  ListColumn.counter_fits (deref h (ListColumn._pData c)) ->
  0 <= row -> deref h (ListColumn._pData c) !! Z.to_nat row = Some x ->
  ListColumn.value h c row = Ok x.
Proof.
  intros Hfit Hrow Hx. unfold ListColumn.value. cbv zeta.
  destruct (row <=? _).
  - now rewrite (forward_walk_found _ _ x).
  - now rewrite (backward_walk_found _ _ x).
Qed.

Lemma ListColumn_value_out_of_range h c row :
  ListColumn.counter_fits (deref h (ListColumn._pData c)) ->
  Platform.is_size_t row -> ListColumn.rowCount h c <= row ->
  ListColumn.value h c row = Throw (RangeException "Invalid row number.").
Proof.
  intros Hfit Hsz Hrow. unfold ListColumn.value, ListColumn.rowCount in *.
  cbv zeta. destruct (row <=? _).
  - now rewrite forward_walk_exhausted.
  - now rewrite backward_walk_exhausted.
Qed.

Lemma ListColumn_value_empty h c row :
  deref h (ListColumn._pData c) = [] ->
  ListColumn.value h c row = Throw (RangeException "Invalid row number.").
Proof.
  intros E. unfold ListColumn.value. rewrite E. cbv zeta.
  now destruct (row <=? _).
Qed.

(** The list specialisation never throws [std::out_of_range]. *)
Lemma ListColumn_value_not_native h c row what :
  ListColumn.value h c row <> Throw (std_out_of_range what).
Proof.
  unfold ListColumn.value. cbv zeta.
  destruct (row <=? _); (destruct (ListColumn.walk _ _ _); discriminate).
Qed.

Lemma ListColumn_copy_of_pData c c' :
  ListColumn.copy_of c c' -> ListColumn._pData c' = ListColumn._pData c.
Proof. now intros [|this]. Qed.

Lemma ListColumn_copy_of_meta c c' :
  ListColumn.copy_of c c' ->
  ListColumn._metaColumn c' = ListColumn._metaColumn c.
Proof. now intros [|this]. Qed.

Lemma ListColumn_value_pData h c c' row :
  ListColumn._pData c' = ListColumn._pData c ->
  ListColumn.value h c' row = ListColumn.value h c row.
Proof. intros E. unfold ListColumn.value. now rewrite E. Qed.

Lemma ListColumn_rowCount_pData h c c' :
  ListColumn._pData c' = ListColumn._pData c ->
  ListColumn.rowCount h c' = ListColumn.rowCount h c.
Proof. intros E. unfold ListColumn.rowCount. now rewrite E. Qed.

Lemma ListColumn_run_snd ks : forall (s : store T * ListColumn.Column),
  snd (ListColumn.run ks s) = snd s.
Proof.
  unfold ListColumn.run.
  induction ks as [|k ks IH]; intros s; [reflexivity|].
  simpl. rewrite IH. now destruct k.
Qed.

End ListValueFacts.

(** ** The boolean specialisation *)

Section BoolFacts.
Implicit Types (h : store bool) (c : BoolVector.Column) (row : Z)
  (o : BoolVector.operand_order).

Lemma sync_pData h c :
  BoolVector._pData (BoolVector.sync h c) = BoolVector._pData c.
Proof. unfold BoolVector.sync. now destruct (_ <? _). Qed.

Lemma sync_metaColumn h c :
  BoolVector._metaColumn (BoolVector.sync h c) = BoolVector._metaColumn c.
Proof. unfold BoolVector.sync. now destruct (_ <? _). Qed.

(** After the first statement of [value] the shadow deque is at least as
    long as the container. *)
Lemma sync_covers h c :
  Std.size (deref h (BoolVector._pData c))
  <= Std.size (BoolVector._deque (BoolVector.sync h c)).
Proof.
  unfold BoolVector.sync.
  destruct (Z.ltb_spec (Std.size (BoolVector._deque c))
                       (Std.size (deref h (BoolVector._pData c)))) as [Hlt|Hge].
  - simpl. unfold Std.resize_bool, Std.size at 2. rewrite length_resize.
    unfold Std.size. lia.
  - exact Hge.
Qed.

(** The first statement only ever appends [false] elements. *)
Lemma sync_grows h c :
  exists k, BoolVector._deque (BoolVector.sync h c)
            = BoolVector._deque c ++ replicate k false.
Proof.
  unfold BoolVector.sync.
  destruct (Z.ltb_spec (Std.size (BoolVector._deque c))
                       (Std.size (deref h (BoolVector._pData c)))) as [Hlt|Hge].
  - simpl. unfold Std.resize_bool. eexists.
    apply resize_ge. unfold Std.size in *. lia.
  - exists 0%nat. simpl. now rewrite app_nil_r.
Qed.

(** When the shadow deque already covers the container, nothing is done. *)
Lemma sync_idle h c :
  Std.size (deref h (BoolVector._pData c)) <= Std.size (BoolVector._deque c) ->
  BoolVector.sync h c = c.
Proof.
  intros Hle. unfold BoolVector.sync.
  destruct (Z.ltb_spec (Std.size (BoolVector._deque c))
                       (Std.size (deref h (BoolVector._pData c)))); [lia|].
  reflexivity.
Qed.

(** Both operand orders produce the container's element for a valid row,
    provided the deque covers the container. *)
Lemma operands_in_range o h c row x :
  0 <= row ->
  Std.size (deref h (BoolVector._pData c)) <= Std.size (BoolVector._deque c) ->
  deref h (BoolVector._pData c) !! Z.to_nat row = Some x ->
  BoolVector.operands o h c row = Ok x.
Proof.
  intros Hrow Hcov Hx.
  apply lookup_lt_Some in Hx as Hlt.
  destruct (lookup_in_range (BoolVector._deque c) row) as [y Hy];
    [unfold Std.size in *; lia|].
  unfold BoolVector.operands.
  rewrite (at_in_range _ _ _ x Hrow Hx), (at_in_range _ _ _ y Hrow Hy).
  now destruct o.
Qed.

(** Both operand orders throw [std::out_of_range] for a row past the end
    of the container; only the message depends on the order. *)
Lemma operands_out_of_range o h c row :
  Std.size (deref h (BoolVector._pData c)) <= row ->
  exists what, BoolVector.operands o h c row = Throw (std_out_of_range what).
Proof.
  intros Hrow. unfold BoolVector.operands.
  rewrite (at_out_of_range Std.vector_bool_what) by exact Hrow.
  destruct o; simpl; [now eexists|].
  destruct (at_cases Std.deque_what (BoolVector._deque c) row) as [[y ->] | ->];
    simpl; now eexists.
Qed.

(** With the right operand first, the message is the container's. *)
Lemma operands_out_of_range_right h c row :
  Std.size (deref h (BoolVector._pData c)) <= row ->
  BoolVector.operands BoolVector.RightOperandFirst h c row
  = Throw (std_out_of_range Std.vector_bool_what).
Proof.
  intros Hrow. unfold BoolVector.operands.
  now rewrite (at_out_of_range Std.vector_bool_what) by exact Hrow.
Qed.

Lemma BoolVector_value_in_range o h c row x :
  0 <= row -> deref h (BoolVector._pData c) !! Z.to_nat row = Some x ->
  BoolVector.value o h c row
  = (Ok x,
     BoolVector.mkColumn (BoolVector._metaColumn c) (BoolVector._pData c)
       (<[Z.to_nat row := x]> (BoolVector._deque (BoolVector.sync h c)))).
Proof.
  intros Hrow Hx. unfold BoolVector.value. cbv zeta.
  pose proof (sync_covers h c) as Hcov.
  rewrite <- (sync_pData h c) in Hx, Hcov.
  rewrite (operands_in_range o h _ row x Hrow Hcov Hx). simpl.
  apply lookup_lt_Some in Hx as Hlt.
  rewrite list_lookup_insert_eq by (unfold Std.size in Hcov; lia).
  now rewrite sync_pData, sync_metaColumn.
Qed.

Lemma BoolVector_value_out_of_range o h c row :
  BoolVector.rowCount h c <= row ->
  exists msg, BoolVector.value o h c row
              = (Throw (RangeException msg), BoolVector.sync h c).
Proof.
  intros Hrow. unfold BoolVector.value, BoolVector.rowCount in *. cbv zeta.
  rewrite <- (sync_pData h c) in Hrow.
  destruct (operands_out_of_range o h _ row Hrow) as [what ->].
  simpl. now eexists.
Qed.

Lemma BoolVector_value_out_of_range_right h c row :
  BoolVector.rowCount h c <= row ->
  BoolVector.value BoolVector.RightOperandFirst h c row
  = (Throw (RangeException Std.vector_bool_what), BoolVector.sync h c).
Proof.
  intros Hrow. unfold BoolVector.value, BoolVector.rowCount in *. cbv zeta.
  rewrite <- (sync_pData h c) in Hrow.
  now rewrite operands_out_of_range_right.
Qed.

(** [value] leaves the pointer and the metadata of the column alone. *)
Lemma BoolVector_value_pData o h c row :
  BoolVector._pData (snd (BoolVector.value o h c row)) = BoolVector._pData c.
Proof.
  unfold BoolVector.value. cbv zeta.
  destruct (catch_out_of_range _); simpl; apply sync_pData.
Qed.

Lemma BoolVector_value_metaColumn o h c row :
  BoolVector._metaColumn (snd (BoolVector.value o h c row))
  = BoolVector._metaColumn c.
Proof.
  unfold BoolVector.value. cbv zeta.
  destruct (catch_out_of_range _); simpl; apply sync_metaColumn.
Qed.

Lemma BoolVector_value_not_native o h c row what :
  fst (BoolVector.value o h c row) <> Throw (std_out_of_range what).
Proof.
  unfold BoolVector.value. cbv zeta.
  destruct (catch_out_of_range _) as [b | e | ] eqn:E; simpl.
  - now destruct (_ !! _).
  - rewrite <- E. apply catch_out_of_range_not_native.
  - discriminate.
Qed.

Lemma BoolVector_copy_of_pData h c c' :
  BoolVector.copy_of h c c' -> BoolVector._pData c' = BoolVector._pData c.
Proof. now intros [|this]. Qed.

Lemma BoolVector_copy_of_meta h c c' :
  BoolVector.copy_of h c c' ->
  BoolVector._metaColumn c' = BoolVector._metaColumn c.
Proof. now intros [|this]. Qed.

Lemma BoolVector_copy_of_deque h c c' :
  BoolVector.copy_of h c c' ->
  BoolVector._deque c' = deref h (BoolVector._pData c).
Proof. now intros [|this]. Qed.

Lemma BoolVector_rowCount_pData h c c' :
  BoolVector._pData c' = BoolVector._pData c ->
  BoolVector.rowCount h c' = BoolVector.rowCount h c.
Proof. intros E. unfold BoolVector.rowCount. now rewrite E. Qed.

End BoolFacts.

(** ** The scenario of the specification *)

Example scenario_age :
  Generic.rowCount Examples.ints Examples.age_vector = 3 /\
  Generic.value Examples.ints Examples.age_vector 1 = Ok 20 /\
  is_RangeException (Generic.value Examples.ints Examples.age_vector 3) /\
  Generic.name Examples.age_vector = "age" /\
  (let h' := Generic.reset Examples.ints Examples.age_vector in
   Generic.rowCount h' Examples.age_vector = 0 /\
   is_RangeException (Generic.value h' Examples.age_vector 0)).
Proof.
  repeat split; try reflexivity; eexists; vm_compute; reflexivity.
Qed.

(** The list specialisation at [row = 0], [row = size / 2] and
    [row = size - 1]: the first two are found walking forward, the last
    walking backward. *)
Example scenario_list_rows :
  let l := deref Examples.ints 3%positive in
  ListColumn.value Examples.ints Examples.five_list 0 = Ok 1 /\
  ListColumn.value Examples.ints Examples.five_list 2 = Ok 3 /\
  ListColumn.value Examples.ints Examples.five_list 4 = Ok 5 /\
  ListColumn.walk 0 0 l = ListColumn.Found 1 /\
  ListColumn.walk 2 0 l = ListColumn.Found 3 /\
  ListColumn.walk (Platform.size_t_sub 5 4) 1 (reverse l) = ListColumn.Found 5.
Proof. repeat split. Qed.

(** * The claims *)

(** Closes a goal about concrete columns by evaluation. *)
Ltac by_evaluation :=
  vm_compute; repeat split; try discriminate; try reflexivity; eauto.

(** X14.  For a row in [0, rowCount()), [value(row)] returns the element the
    backing container holds at position [row], in the primary template, in
    the [vector<bool>] specialisation (whichever operand order the compiler
    picks) and, for lists of fewer than [INT_MAX] elements, in the [list]
    specialisation.  Columns of different kinds over the same content
    return the same value for the same row. *)
Theorem X14_value_returns_stored_element :
  (forall (T : Type) (h : store T) (c : Generic.Column) (row : Z),
      0 <= row < Generic.rowCount h c ->
      exists x, deref h (Generic._pData c) !! Z.to_nat row = Some x /\
                Generic.value h c row = Ok x)
  /\
  (forall (o : BoolVector.operand_order) (h : store bool)
          (c : BoolVector.Column) (row : Z),
      0 <= row < BoolVector.rowCount h c ->
      exists x, deref h (BoolVector._pData c) !! Z.to_nat row = Some x /\
                fst (BoolVector.value o h c row) = Ok x)
  /\
  (forall (T : Type) (h : store T) (c : ListColumn.Column) (row : Z),
      ListColumn.counter_fits (deref h (ListColumn._pData c)) ->
      0 <= row < ListColumn.rowCount h c ->
      exists x, deref h (ListColumn._pData c) !! Z.to_nat row = Some x /\
                ListColumn.value h c row = Ok x)
  /\
  (forall (T : Type) (hg hl : store T) (g : Generic.Column)
          (l : ListColumn.Column) (row : Z),
      deref hl (ListColumn._pData l) = deref hg (Generic._pData g) ->
      ListColumn.counter_fits (deref hl (ListColumn._pData l)) ->
      0 <= row < Generic.rowCount hg g ->
      ListColumn.value hl l row = Generic.value hg g row)
  /\
  (forall (o : BoolVector.operand_order) (hg hb hl : store bool)
          (g : Generic.Column) (b : BoolVector.Column)
          (l : ListColumn.Column) (row : Z),
      deref hb (BoolVector._pData b) = deref hg (Generic._pData g) ->
      deref hl (ListColumn._pData l) = deref hg (Generic._pData g) ->
      ListColumn.counter_fits (deref hl (ListColumn._pData l)) ->
      0 <= row < Generic.rowCount hg g ->
      fst (BoolVector.value o hb b row) = Generic.value hg g row /\
      ListColumn.value hl l row = Generic.value hg g row).
Proof.
  assert (Hgen : forall (T : Type) (h : store T) (c : Generic.Column) row,
      0 <= row < Generic.rowCount h c ->
      exists x, deref h (Generic._pData c) !! Z.to_nat row = Some x /\
                Generic.value h c row = Ok x).
  { intros T h c row Hrow.
    destruct (lookup_in_range _ row Hrow) as [x Hx].
    exists x. split; [exact Hx|]. apply Generic_value_in_range; [lia | exact Hx]. }
  assert (Hlist : forall (T : Type) (h : store T) (c : ListColumn.Column) row,
      ListColumn.counter_fits (deref h (ListColumn._pData c)) ->
      0 <= row < ListColumn.rowCount h c ->
      exists x, deref h (ListColumn._pData c) !! Z.to_nat row = Some x /\
                ListColumn.value h c row = Ok x).
  { intros T h c row Hfit Hrow.
    destruct (lookup_in_range _ row Hrow) as [x Hx].
    exists x. split; [exact Hx|].
    apply ListColumn_value_in_range; [exact Hfit | lia | exact Hx]. }
  assert (Hbool : forall o (h : store bool) (c : BoolVector.Column) row,
      0 <= row < BoolVector.rowCount h c ->
      exists x, deref h (BoolVector._pData c) !! Z.to_nat row = Some x /\
                fst (BoolVector.value o h c row) = Ok x).
  { intros o h c row Hrow.
    destruct (lookup_in_range _ row Hrow) as [x Hx].
    exists x. split; [exact Hx|].
    now rewrite (BoolVector_value_in_range o h c row x) by (lia || exact Hx). }
  split; [exact Hgen|]. split; [exact Hbool|]. split; [exact Hlist|]. split.
  - intros T hg hl g l row Hsame Hfit Hrow.
    destruct (Hgen T hg g row Hrow) as (x & Hx & ->).
    rewrite <- Hsame in Hx.
    apply ListColumn_value_in_range; [exact Hfit | lia | exact Hx].
  - intros o hg hb hl g b l row Hb Hl Hfit Hrow.
    destruct (Hgen bool hg g row Hrow) as (x & Hx & ->).
    split.
    + rewrite <- Hb in Hx.
      now rewrite (BoolVector_value_in_range o hb b row x) by (lia || exact Hx).
    + rewrite <- Hl in Hx.
      apply ListColumn_value_in_range; [exact Hfit | lia | exact Hx].
Qed.

Lemma X14_value_returns_stored_element_witness :
  (exists x, deref Examples.ints 1%positive !! Z.to_nat 1 = Some x /\
             Generic.value Examples.ints Examples.age_vector 1 = Ok x)
  /\
  (exists x, deref Examples.bools 2%positive !! Z.to_nat 2 = Some x /\
             fst (BoolVector.value BoolVector.LeftOperandFirst Examples.bools
                    Examples.flag_stale 2) = Ok x)
  /\
  (exists x, deref Examples.ints 3%positive !! Z.to_nat 4 = Some x /\
             ListColumn.value Examples.ints Examples.five_list 4 = Ok x)
  /\
  ListColumn.value Examples.ints Examples.age_list 2
  = Generic.value Examples.ints Examples.age_vector 2
  /\
  (fst (BoolVector.value BoolVector.RightOperandFirst Examples.bools
          Examples.flag_stale 1)
   = Generic.value Examples.bools Examples.flag_vector 1 /\
   ListColumn.value Examples.bools Examples.flag_list 1
   = Generic.value Examples.bools Examples.flag_vector 1).
Proof.
  destruct X14_value_returns_stored_element as (Hg & Hb & Hl & Hgl & Hall).
  split; [|split; [|split; [|split]]].
  - apply (Hg Z Examples.ints Examples.age_vector 1). by_evaluation.
  - apply (Hb BoolVector.LeftOperandFirst Examples.bools Examples.flag_stale 2).
    by_evaluation.
  - apply (Hl Z Examples.ints Examples.five_list 4); by_evaluation.
  - apply (Hgl Z Examples.ints Examples.ints Examples.age_vector
             Examples.age_list 2); by_evaluation.
  - apply (Hall BoolVector.RightOperandFirst Examples.bools Examples.bools
             Examples.bools Examples.flag_vector Examples.flag_stale
             Examples.flag_list 1); by_evaluation.
Defined.

(** X15.  For a row at or past [rowCount()], [value(row)] fails with a
    [RangeException] in the primary template, in the boolean specialisation
    and, on a [std::size_t] row and a list of fewer than [INT_MAX] elements,
    in the list specialisation; a [std::out_of_range] never leaves [value];
    and [rowCount()] after the failing call is what it was before. *)
Theorem X15_value_out_of_range_fails :
  (forall (T : Type) (h : store T) (c : Generic.Column) (row : Z),
      Generic.rowCount h c <= row ->
      is_RangeException (Generic.value h c row) /\
      (forall what, Generic.value h c row <> Throw (std_out_of_range what)) /\
      (let s' := Generic.exec (Generic.CallValue row) (h, c) in
       Generic.rowCount (fst s') (snd s') = Generic.rowCount h c))
  /\
  (forall (o : BoolVector.operand_order) (h : store bool)
          (c : BoolVector.Column) (row : Z),
      BoolVector.rowCount h c <= row ->
      is_RangeException (fst (BoolVector.value o h c row)) /\
      (forall what,
          fst (BoolVector.value o h c row) <> Throw (std_out_of_range what)) /\
      (let s' := BoolVector.exec o (BoolVector.CallValue row) (h, c) in
       BoolVector.rowCount (fst s') (snd s') = BoolVector.rowCount h c))
  /\
  (forall (T : Type) (h : store T) (c : ListColumn.Column) (row : Z),
      ListColumn.counter_fits (deref h (ListColumn._pData c)) ->
      Platform.is_size_t row ->
      ListColumn.rowCount h c <= row ->
      is_RangeException (ListColumn.value h c row) /\
      (forall what, ListColumn.value h c row <> Throw (std_out_of_range what)) /\
      (let s' := ListColumn.exec (ListColumn.CallValue row) (h, c) in
       ListColumn.rowCount (fst s') (snd s') = ListColumn.rowCount h c)).
Proof.
  split; [|split].
  - intros T h c row Hrow. split; [|split].
    + rewrite Generic_value_out_of_range by exact Hrow. now eexists.
    + intros what. apply Generic_value_not_native.
    + reflexivity.
  - intros o h c row Hrow. split; [|split].
    + destruct (BoolVector_value_out_of_range o h c row Hrow) as [msg ->].
      now exists msg.
    + intros what. apply BoolVector_value_not_native.
    + simpl. apply BoolVector_rowCount_pData, BoolVector_value_pData.
  - intros T h c row Hfit Hsz Hrow. split; [|split].
    + rewrite ListColumn_value_out_of_range by assumption. now eexists.
    + intros what. apply ListColumn_value_not_native.
    + reflexivity.
Qed.

Lemma X15_value_out_of_range_fails_witness :
  is_RangeException (Generic.value Examples.ints Examples.age_vector 3)
  /\
  is_RangeException
    (fst (BoolVector.value BoolVector.LeftOperandFirst Examples.bools
            Examples.flag_stale 3))
  /\
  is_RangeException
    (ListColumn.value Examples.ints Examples.age_list 18446744073709551615).
Proof.
  destruct X15_value_out_of_range_fails as (Hg & Hb & Hl).
  split; [|split].
  - apply (Hg Z Examples.ints Examples.age_vector 3). by_evaluation.
  - apply (Hb BoolVector.LeftOperandFirst Examples.bools Examples.flag_stale 3).
    by_evaluation.
  - apply (Hl Z Examples.ints Examples.age_list 18446744073709551615);
      by_evaluation.
Defined.

(** C3.  In every variant [rowCount()] is the number of elements of the
    backing container in the state reached by any sequence of calls
    ([value], [operator[]], [rowCount], [reset], updates through [data()]),
    and right after construction; after an update through [data()] it is
    the number of elements of the updated container; right after [reset()]
    it is 0. *)
Theorem C3_rowCount_is_element_count :
  (forall (T : Type) (ks : list (Generic.call (T := T)))
          (s : store T * Generic.Column),
      let s' := Generic.run ks s in
      Generic.rowCount (fst s') (snd s')
      = Z.of_nat (length (deref (fst s') (Generic._pData (snd s')))) /\
      (forall f, let s2 := Generic.exec (Generic.CallData f) s' in
                 Generic.rowCount (fst s2) (snd s2)
                 = Z.of_nat (length (f (Generic.data (fst s') (snd s'))))) /\
      (let s0 := Generic.exec Generic.CallReset s' in
       Generic.rowCount (fst s0) (snd s0) = 0 /\
       deref (fst s0) (Generic._pData (snd s0)) = []))
  /\
  (forall (T : Type) (meta : MetaColumn) (p : addr) (h : store T),
      exists c, Generic.Column_new meta (Some p) = Some c /\
                Generic.rowCount h c = Z.of_nat (length (deref h p)))
  /\
  (forall (o : BoolVector.operand_order) (ks : list BoolVector.call)
          (s : store bool * BoolVector.Column),
      let s' := BoolVector.run o ks s in
      BoolVector.rowCount (fst s') (snd s')
      = Z.of_nat (length (deref (fst s') (BoolVector._pData (snd s')))) /\
      (forall f, let s2 := BoolVector.exec o (BoolVector.CallData f) s' in
                 BoolVector.rowCount (fst s2) (snd s2)
                 = Z.of_nat (length (f (BoolVector.data (fst s') (snd s'))))) /\
      (let s0 := BoolVector.exec o BoolVector.CallReset s' in
       BoolVector.rowCount (fst s0) (snd s0) = 0 /\
       deref (fst s0) (BoolVector._pData (snd s0)) = []))
  /\
  (forall (meta : MetaColumn) (p : addr) (h : store bool),
      exists c, BoolVector.Column_new meta (Some p) h = Some c /\
                BoolVector.rowCount h c = Z.of_nat (length (deref h p)))
  /\
  (forall (T : Type) (ks : list (ListColumn.call (T := T)))
          (s : store T * ListColumn.Column),
      let s' := ListColumn.run ks s in
      ListColumn.rowCount (fst s') (snd s')
      = Z.of_nat (length (deref (fst s') (ListColumn._pData (snd s')))) /\
      (forall f, let s2 := ListColumn.exec (ListColumn.CallData f) s' in
                 ListColumn.rowCount (fst s2) (snd s2)
                 = Z.of_nat (length (f (ListColumn.data (fst s') (snd s'))))) /\
      (let s0 := ListColumn.exec ListColumn.CallReset s' in
       ListColumn.rowCount (fst s0) (snd s0) = 0 /\
       deref (fst s0) (ListColumn._pData (snd s0)) = []))
  /\
  (forall (T : Type) (meta : MetaColumn) (p : addr) (h : store T),
      exists c, ListColumn.Column_new meta (Some p) = Some c /\
                ListColumn.rowCount h c = Z.of_nat (length (deref h p))).
Proof.
  repeat apply conj.
  - intros T ks s s'. split; [reflexivity|]. split.
    + intros f. simpl. unfold Generic.rowCount, Generic.data_update.
      now rewrite deref_write_same.
    + simpl. unfold Generic.rowCount, Generic.reset.
      now rewrite deref_write_same.
  - intros T meta p h. eexists. split; reflexivity.
  - intros o ks s s'. split; [reflexivity|]. split.
    + intros f. simpl. unfold BoolVector.rowCount, BoolVector.data_update.
      now rewrite deref_write_same.
    + simpl. unfold BoolVector.rowCount. simpl.
      now rewrite deref_write_same.
  - intros meta p h. eexists. split; reflexivity.
  - intros T ks s s'. split; [reflexivity|]. split.
    + intros f. simpl. unfold ListColumn.rowCount, ListColumn.data_update.
      now rewrite deref_write_same.
    + simpl. unfold ListColumn.rowCount, ListColumn.reset.
      now rewrite deref_write_same.
  - intros T meta p h. eexists. split; reflexivity.
Qed.

(** Reading valid rows in any order, from any state of the shadow deque,
    yields the container's elements at those rows. *)
Lemma read_rows_in_range o (h : store bool) (rows : list Z) :
  forall c : BoolVector.Column,
    Forall (fun row => 0 <= row < BoolVector.rowCount h c) rows ->
    fst (BoolVector.read_rows o h c rows)
    = (fun row => Ok (deref h (BoolVector._pData c) !!! Z.to_nat row)) <$> rows.
Proof.
  induction rows as [|row rows IH]; intros c Hrows; [reflexivity|].
  apply Forall_cons in Hrows as [Hrow Hrows].
  destruct (lookup_in_range _ row Hrow) as [x Hx].
  simpl. rewrite (BoolVector_value_in_range o h c row x) by (lia || exact Hx).
  set (c1 := BoolVector.mkColumn _ _ _).
  specialize (IH c1 Hrows).
  destruct (BoolVector.read_rows o h c1 rows) as [rs c2]. simpl in *.
  rewrite IH. f_equal. f_equal. symmetry.
  now apply list_lookup_total_correct.
Qed.

(** Rows [0 .. size-1] in order give back the container itself. *)
Lemma rows_in_order {A} `{!Inhabited A} (v : list A) :
  (fun row => Ok (v !!! Z.to_nat row)) <$> seqZ 0 (Std.size v) = Ok <$> v.
Proof.
  apply list_eq. intros i. rewrite !list_lookup_fmap.
  destruct (v !! i) as [x|] eqn:E.
  - apply lookup_lt_Some in E as Hlt.
    rewrite lookup_seqZ_lt by (unfold Std.size; lia). simpl.
    rewrite Z.add_0_l, Nat2Z.id. do 2 f_equal.
    now apply list_lookup_total_correct.
  - apply lookup_ge_None in E.
    now rewrite lookup_seqZ_ge by (unfold Std.size; lia).
Qed.

(** C4.  Round trip of the [vector<bool>] specialisation.  A column
    constructed over a container [v] starts with a shadow deque equal to
    [v]; reading its rows [0 .. N-1] in order yields [v], and reading any
    sequence of valid rows, in any order and with repetitions, yields the
    elements of [v] at those rows.  The same holds from every state [d] of
    the shadow deque, shorter or longer than [v] or with other content, so
    also when reads have to resize it. *)
Theorem C4_bool_round_trip :
  forall (o : BoolVector.operand_order) (h : store bool) (meta : MetaColumn)
         (p : addr),
    let v := deref h p in
    (exists c, BoolVector.Column_new meta (Some p) h = Some c /\
               BoolVector._deque c = v /\
               fst (BoolVector.read_rows o h c (seqZ 0 (Std.size v)))
               = Ok <$> v) /\
    (forall (d : list bool) (rows : list Z),
        Forall (fun row => 0 <= row < Std.size v) rows ->
        fst (BoolVector.read_rows o h (BoolVector.mkColumn meta p d) rows)
        = (fun row => Ok (v !!! Z.to_nat row)) <$> rows).
Proof.
  intros o h meta p v.
  assert (Hany : forall d rows,
      Forall (fun row => 0 <= row < Std.size v) rows ->
      fst (BoolVector.read_rows o h (BoolVector.mkColumn meta p d) rows)
      = (fun row => Ok (v !!! Z.to_nat row)) <$> rows).
  { intros d rows Hrows. now apply read_rows_in_range. }
  split; [|exact Hany].
  exists (BoolVector.mkColumn meta p v). split; [reflexivity|].
  split; [reflexivity|].
  rewrite Hany; [apply rows_in_order|].
  apply Forall_forall. intros row Hrow.
  apply elem_of_seqZ in Hrow. lia.
Qed.

Lemma C4_bool_round_trip_witness :
  fst (BoolVector.read_rows BoolVector.LeftOperandFirst Examples.bools
         (BoolVector.mkColumn Examples.flag 2%positive [false]) [2; 0; 1; 2])
  = (fun row => Ok (deref Examples.bools 2%positive !!! Z.to_nat row))
    <$> [2; 0; 1; 2].
Proof.
  apply (proj2 (C4_bool_round_trip BoolVector.LeftOperandFirst Examples.bools
                  Examples.flag 2%positive)).
  repeat (apply Forall_cons_2; [by_evaluation|]). apply Forall_nil_2.
Defined.

(** X16.  In the list specialisation, on a [std::size_t] row and a list
    of fewer than [INT_MAX] elements: for [row < size] the loop that
    [value] runs (forward when [row <= size / 2], backward otherwise) returns
    the element at [row], so the final [throw] is not reached; for
    [row >= size], including the rows for which [size - row] wraps around,
    the forward and the backward loop both run off the end and [value]
    throws the [RangeException] it constructs itself, with the message
    "Invalid row number.". *)
Theorem X16_list_traversal :
  forall (T : Type) (h : store T) (c : ListColumn.Column) (row : Z),
    let l := deref h (ListColumn._pData c) in
    ListColumn.counter_fits l ->
    Platform.is_size_t row ->
    (row < Std.size l ->
     exists x,
       l !! Z.to_nat row = Some x /\
       (if row <=? Std.size l / 2
        then ListColumn.walk row 0 l
        else ListColumn.walk (Platform.size_t_sub (Std.size l) row) 1
               (reverse l)) = ListColumn.Found x /\
       ListColumn.value h c row = Ok x) /\
    (Std.size l <= row ->
     ListColumn.walk row 0 l = ListColumn.Exhausted /\
     ListColumn.walk (Platform.size_t_sub (Std.size l) row) 1 (reverse l)
     = ListColumn.Exhausted /\
     ListColumn.value h c row = Throw (RangeException "Invalid row number.")).
Proof.
  intros T h c row l Hfit Hsz. split.
  - intros Hrow. destruct Hsz as [Hrow0 _].
    destruct (lookup_in_range l row (conj Hrow0 Hrow)) as [x Hx].
    exists x. split; [exact Hx|]. split.
    + destruct (row <=? _).
      * now apply forward_walk_found.
      * now apply backward_walk_found.
    + now apply ListColumn_value_in_range.
  - intros Hrow. split; [|split].
    + now apply forward_walk_exhausted.
    + now apply backward_walk_exhausted.
    + now apply ListColumn_value_out_of_range.
Qed.

Lemma X16_list_traversal_witness :
  (exists x,
      deref Examples.ints 3%positive !! Z.to_nat 3 = Some x /\
      ListColumn.walk (Platform.size_t_sub 5 3) 1
        (reverse (deref Examples.ints 3%positive)) = ListColumn.Found x /\
      ListColumn.value Examples.ints Examples.five_list 3 = Ok x)
  /\
  ListColumn.value Examples.ints Examples.five_list 7
  = Throw (RangeException "Invalid row number.").
Proof.
  split.
  - refine (proj1 (X16_list_traversal Z Examples.ints Examples.five_list 3
                     _ _) _); by_evaluation.
  - refine (proj2 (proj2 (proj2 (X16_list_traversal Z Examples.ints
                     Examples.five_list 7 _ _) _))); by_evaluation.
Defined.

(** C6.  After any call of [value] on a boolean column, returning or
    throwing, for any row and either operand order, the shadow deque is at
    least as long as the container (which the call leaves as it was).  The
    same holds for the call seen as a step of the column's state. *)
Theorem C6_shadow_covers_container :
  forall (o : BoolVector.operand_order) (h : store bool)
         (c : BoolVector.Column) (row : Z),
    (let c' := snd (BoolVector.value o h c row) in
     Std.size (deref h (BoolVector._pData c'))
     <= Std.size (BoolVector._deque c')) /\
    (let s' := BoolVector.exec o (BoolVector.CallValue row) (h, c) in
     fst s' = h /\
     BoolVector._pData (snd s') = BoolVector._pData c /\
     Std.size (deref (fst s') (BoolVector._pData (snd s')))
     <= Std.size (BoolVector._deque (snd s'))).
Proof.
  intros o h c row.
  assert (Hcov : Std.size (deref h (BoolVector._pData
                                      (snd (BoolVector.value o h c row))))
                 <= Std.size (BoolVector._deque
                                (snd (BoolVector.value o h c row)))).
  { rewrite BoolVector_value_pData.
    pose proof (sync_covers h c) as Hsync.
    unfold BoolVector.value. cbv zeta.
    destruct (catch_out_of_range _); simpl; try exact Hsync.
    unfold Std.size at 2. rewrite length_insert. exact Hsync. }
  split; [exact Hcov|]. simpl. split; [reflexivity|].
  split; [apply BoolVector_value_pData | exact Hcov].
Qed.



(** ** What a boolean column returns depends on its container only *)

Lemma at_Ok_inv {A} what (c : list A) n x :
  Std.at_ what c n = Ok x -> n < Std.size c /\ c !! Z.to_nat n = Some x.
Proof.
  unfold Std.at_. destruct (Z.leb_spec (Std.size c) n); [discriminate|].
  destruct (c !! Z.to_nat n); [|discriminate].
  intros [= ->]. now split.
Qed.

Lemma at_Ok_longer {A} what what' (c d : list A) n x :
  Std.size c <= Std.size d -> Std.at_ what c n = Ok x ->
  exists y, Std.at_ what' d n = Ok y.
Proof.
  intros Hle Hat. apply at_Ok_inv in Hat as [Hlt Hx].
  apply lookup_lt_Some in Hx.
  destruct (lookup_lt_is_Some_2 d (Z.to_nat n)) as [y Hy];
    [unfold Std.size in Hle; lia|].
  exists y. unfold Std.at_. rewrite Hy.
  destruct (Z.leb_spec (Std.size d) n); [lia | reflexivity].
Qed.

Section BoolValueFacts.
Implicit Types (h : store bool) (c : BoolVector.Column) (row : Z)
  (o : BoolVector.operand_order).

(** With the right operand first, [value] returns or throws exactly as
    [at] on the container does, behind the handler. *)
Lemma BoolVector_value_right h c row :
  fst (BoolVector.value BoolVector.RightOperandFirst h c row)
  = catch_out_of_range
      (Std.at_ Std.vector_bool_what (deref h (BoolVector._pData c)) row).
Proof.
  unfold BoolVector.value, BoolVector.operands. cbv zeta.
  rewrite sync_pData. pose proof (sync_covers h c) as Hcov.
  destruct (at_cases Std.vector_bool_what (deref h (BoolVector._pData c)) row)
    as [[x Hx] | Hx]; rewrite Hx; [|reflexivity].
  destruct (at_Ok_longer _ Std.deque_what _ _ _ _ Hcov Hx) as [y Hy].
  simpl. rewrite Hy. simpl.
  apply at_Ok_inv in Hy as [_ Hy]. apply lookup_lt_Some in Hy.
  now rewrite list_lookup_insert_eq.
Qed.

(** With either order the outcome is the same up to the message text. *)
Lemma BoolVector_value_any o h c row :
  BoolVector.same_outcome
    (fst (BoolVector.value o h c row))
    (catch_out_of_range
       (Std.at_ Std.vector_bool_what (deref h (BoolVector._pData c)) row)).
Proof.
  destruct o.
  { rewrite BoolVector_value_right.
    destruct (catch_out_of_range _) as [b | [w | m] | ] eqn:E; simpl; trivial.
    - now apply catch_out_of_range_not_native in E.
    - destruct (at_cases Std.vector_bool_what
                  (deref h (BoolVector._pData c)) row) as [[x Hx] | Hx];
        rewrite Hx in E; discriminate. }
  unfold BoolVector.value, BoolVector.operands. cbv zeta.
  rewrite sync_pData. pose proof (sync_covers h c) as Hcov.
  destruct (at_cases Std.vector_bool_what (deref h (BoolVector._pData c)) row)
    as [[x Hx] | Hx]; rewrite Hx.
  - destruct (at_Ok_longer _ Std.deque_what _ _ _ _ Hcov Hx) as [y Hy].
    rewrite Hy. simpl.
    apply at_Ok_inv in Hy as [_ Hy]. apply lookup_lt_Some in Hy.
    now rewrite list_lookup_insert_eq.
  - destruct (at_cases Std.deque_what
                (BoolVector._deque (BoolVector.sync h c)) row)
      as [[y ->] | ->]; simpl; trivial.
Qed.

Lemma same_outcome_join (r1 r2 r : result bool) :
  BoolVector.same_outcome r1 r -> BoolVector.same_outcome r2 r ->
  BoolVector.same_outcome r1 r2.
Proof.
  destruct r1 as [a | [w1 | m1] | ], r2 as [b | [w2 | m2] | ],
           r as [x | [w | m] | ]; simpl; try tauto; congruence.
Qed.

(** Two boolean columns with the same pointer give the same outcome,
    whatever their shadow deques hold. *)
Lemma BoolVector_value_shared o h c c' row :
  BoolVector._pData c' = BoolVector._pData c ->
  BoolVector.same_outcome (fst (BoolVector.value o h c' row))
                          (fst (BoolVector.value o h c row)) /\
  fst (BoolVector.value BoolVector.RightOperandFirst h c' row)
  = fst (BoolVector.value BoolVector.RightOperandFirst h c row).
Proof.
  intros E. split.
  - eapply same_outcome_join; [|apply BoolVector_value_any].
    rewrite <- E. apply BoolVector_value_any.
  - rewrite !BoolVector_value_right. now rewrite E.
Qed.

Lemma BoolVector_value_empty o h c row :
  deref h (BoolVector._pData c) = [] ->
  is_RangeException (fst (BoolVector.value o h c row)).
Proof.
  intros E. pose proof (BoolVector_value_any o h c row) as H.
  rewrite E, at_nil in H. simpl in H.
  destruct (fst (BoolVector.value o h c row)) as [b | [w | m] | ];
    try contradiction.
  now exists m.
Qed.

End BoolValueFacts.

(** C8.  A column [c'] made from [c] by the copy constructor or by
    assignment returns, at the moment of the copy, what [c] returns for
    every row.  After that the two share one container: when a caller
    updates the container through [data()] of one of them, [data()],
    [rowCount()] and [value()] of the other show the updated container.
    In the boolean specialisation "the same" is exact for valid rows and for
    the C++17 operand order; with the left operand first, two failing calls
    may differ in the message of the [RangeException]. *)
Theorem C8_copies_share_the_container :
  (forall (T : Type) (h : store T) (c c' : Generic.Column),
      Generic.copy_of c c' ->
      (forall row, Generic.value h c' row = Generic.value h c row) /\
      (forall (f : list T -> list T) row,
          let h' := Generic.data_update f h c in
          Generic.data h' c' = f (Generic.data h c) /\
          Generic.rowCount h' c' = Std.size (f (Generic.data h c)) /\
          Generic.value h' c' row
          = catch_out_of_range
              (Std.at_ Std.vector_what (f (Generic.data h c)) row)) /\
      (forall (f : list T -> list T) row,
          let h' := Generic.data_update f h c' in
          Generic.data h' c = f (Generic.data h c) /\
          Generic.rowCount h' c = Std.size (f (Generic.data h c)) /\
          Generic.value h' c row
          = catch_out_of_range
              (Std.at_ Std.vector_what (f (Generic.data h c)) row)))
  /\
  (forall (o : BoolVector.operand_order) (h0 : store bool)
          (c c' : BoolVector.Column),
      BoolVector.copy_of h0 c c' ->
      (forall row,
          BoolVector.same_outcome (fst (BoolVector.value o h0 c' row))
                                  (fst (BoolVector.value o h0 c row)) /\
          fst (BoolVector.value BoolVector.RightOperandFirst h0 c' row)
          = fst (BoolVector.value BoolVector.RightOperandFirst h0 c row) /\
          (0 <= row < BoolVector.rowCount h0 c ->
           fst (BoolVector.value o h0 c' row)
           = fst (BoolVector.value o h0 c row))) /\
      (forall (h : store bool) (f : list bool -> list bool) row,
          let h' := BoolVector.data_update f h c in
          BoolVector.data h' c' = f (BoolVector.data h c) /\
          BoolVector.rowCount h' c' = Std.size (f (BoolVector.data h c)) /\
          BoolVector.same_outcome
            (fst (BoolVector.value o h' c' row))
            (catch_out_of_range
               (Std.at_ Std.vector_bool_what (f (BoolVector.data h c)) row))) /\
      (forall (h : store bool) (f : list bool -> list bool) row,
          let h' := BoolVector.data_update f h c' in
          BoolVector.data h' c = f (BoolVector.data h c) /\
          BoolVector.rowCount h' c = Std.size (f (BoolVector.data h c)) /\
          BoolVector.same_outcome
            (fst (BoolVector.value o h' c row))
            (catch_out_of_range
               (Std.at_ Std.vector_bool_what (f (BoolVector.data h c)) row))))
  /\
  (forall (T : Type) (h : store T) (c c' : ListColumn.Column),
      ListColumn.copy_of c c' ->
      (forall row, ListColumn.value h c' row = ListColumn.value h c row) /\
      (forall (f : list T -> list T) row,
          let h' := ListColumn.data_update f h c in
          ListColumn.data h' c' = f (ListColumn.data h c) /\
          ListColumn.rowCount h' c' = Std.size (f (ListColumn.data h c)) /\
          ListColumn.value h' c' row = ListColumn.value h' c row) /\
      (forall (f : list T -> list T) row,
          let h' := ListColumn.data_update f h c' in
          ListColumn.data h' c = f (ListColumn.data h c) /\
          ListColumn.rowCount h' c = Std.size (f (ListColumn.data h c)) /\
          ListColumn.value h' c row = ListColumn.value h' c' row)).
Proof.
  split; [|split].
  - intros T h c c' Hcopy. apply Generic_copy_of_pData in Hcopy as E.
    split; [intros row; now apply Generic_value_pData|].
    split; intros f row h';
      unfold h', Generic.value, Generic.rowCount, Generic.data_update,
        Generic.data; rewrite ?E, deref_write_same; auto.
  - intros o h0 c c' Hcopy. apply BoolVector_copy_of_pData in Hcopy as E.
    split.
    { intros row.
      destruct (BoolVector_value_shared o h0 c c' row E) as [Hsame Hright].
      split; [exact Hsame|]. split; [exact Hright|].
      intros Hrow.
      destruct (lookup_in_range _ row Hrow) as [x Hx].
      rewrite (BoolVector_value_in_range o h0 c row x) by (lia || exact Hx).
      rewrite <- E in Hx.
      now rewrite (BoolVector_value_in_range o h0 c' row x) by (lia || exact Hx). }
    split; intros h f row h'.
    + pose proof (BoolVector_value_any o h' c' row) as Hv. revert Hv.
      unfold h', BoolVector.rowCount, BoolVector.data_update, BoolVector.data.
      rewrite ?E, deref_write_same. auto.
    + pose proof (BoolVector_value_any o h' c row) as Hv. revert Hv.
      unfold h', BoolVector.rowCount, BoolVector.data_update, BoolVector.data.
      rewrite ?E, deref_write_same. auto.
  - intros T h c c' Hcopy. apply ListColumn_copy_of_pData in Hcopy as E.
    split; [intros row; now apply ListColumn_value_pData|].
    split; intros f row h';
      unfold h', ListColumn.value, ListColumn.rowCount, ListColumn.data_update,
        ListColumn.data; rewrite ?E, deref_write_same; auto.
Qed.

Lemma C8_copies_share_the_container_witness :
  (let c' := Generic.Column_copy Examples.age_vector in
   let h' := Generic.data_update (fun l => l ++ [40]) Examples.ints c' in
   Generic.data h' Examples.age_vector
   = (fun l => l ++ [40]) (Generic.data Examples.ints Examples.age_vector) /\
   Generic.rowCount h' Examples.age_vector
   = Std.size ((fun l => l ++ [40])
                 (Generic.data Examples.ints Examples.age_vector)) /\
   Generic.value h' Examples.age_vector 3
   = catch_out_of_range
       (Std.at_ Std.vector_what
          ((fun l => l ++ [40])
             (Generic.data Examples.ints Examples.age_vector)) 3))
  /\
  (let c' := BoolVector.assign Examples.bools Examples.flag_stale
               Examples.flag_packed in
   fst (BoolVector.value BoolVector.LeftOperandFirst Examples.bools c' 2)
   = fst (BoolVector.value BoolVector.LeftOperandFirst Examples.bools
            Examples.flag_packed 2))
  /\
  (let c' := ListColumn.Column_copy Examples.five_list in
   ListColumn.value Examples.ints c' 4
   = ListColumn.value Examples.ints Examples.five_list 4).
Proof.
  destruct C8_copies_share_the_container as (Hg & Hb & Hl).
  split; [|split].
  - exact (proj2 (proj2 (Hg Z Examples.ints Examples.age_vector _
                           (Generic.by_copy _)))
             (fun l => l ++ [40]) 3).
  - refine (proj2 (proj2 (proj1 (Hb BoolVector.LeftOperandFirst Examples.bools
                                    Examples.flag_packed _
                                    (BoolVector.by_assign _ _
                                       Examples.flag_stale)) 2)) _).
    by_evaluation.
  - exact (proj1 (Hl Z Examples.ints Examples.five_list _
                    (ListColumn.by_copy _)) 4).
Defined.

(** C9.  [reset()] empties the container object itself.  When [c'] was made
    from [c] by the copy constructor or by assignment, a [reset()] through
    either of them leaves [rowCount()] equal to 0 on both, and [value(row)]
    throws a [RangeException] on both for every row. *)
Theorem C9_reset_reaches_every_copy :
  (forall (T : Type) (h : store T) (c c' : Generic.Column),
      Generic.copy_of c c' ->
      (let h' := Generic.reset h c in
       Generic.rowCount h' c = 0 /\ Generic.rowCount h' c' = 0 /\
       forall row, is_RangeException (Generic.value h' c row) /\
                   is_RangeException (Generic.value h' c' row)) /\
      (let h' := Generic.reset h c' in
       Generic.rowCount h' c = 0 /\ Generic.rowCount h' c' = 0 /\
       forall row, is_RangeException (Generic.value h' c row) /\
                   is_RangeException (Generic.value h' c' row)))
  /\
  (forall (o : BoolVector.operand_order) (h0 h : store bool)
          (c c' : BoolVector.Column),
      BoolVector.copy_of h0 c c' ->
      (let s := BoolVector.reset h c in
       BoolVector.rowCount (fst s) (snd s) = 0 /\
       BoolVector.rowCount (fst s) c' = 0 /\
       forall row,
         is_RangeException (fst (BoolVector.value o (fst s) (snd s) row)) /\
         is_RangeException (fst (BoolVector.value o (fst s) c' row))) /\
      (let s := BoolVector.reset h c' in
       BoolVector.rowCount (fst s) (snd s) = 0 /\
       BoolVector.rowCount (fst s) c = 0 /\
       forall row,
         is_RangeException (fst (BoolVector.value o (fst s) (snd s) row)) /\
         is_RangeException (fst (BoolVector.value o (fst s) c row))))
  /\
  (forall (T : Type) (h : store T) (c c' : ListColumn.Column),
      ListColumn.copy_of c c' ->
      (let h' := ListColumn.reset h c in
       ListColumn.rowCount h' c = 0 /\ ListColumn.rowCount h' c' = 0 /\
       forall row, is_RangeException (ListColumn.value h' c row) /\
                   is_RangeException (ListColumn.value h' c' row)) /\
      (let h' := ListColumn.reset h c' in
       ListColumn.rowCount h' c = 0 /\ ListColumn.rowCount h' c' = 0 /\
       forall row, is_RangeException (ListColumn.value h' c row) /\
                   is_RangeException (ListColumn.value h' c' row))).
Proof.
  split; [|split].
  - intros T h c c' Hcopy. apply Generic_copy_of_pData in Hcopy as E.
    assert (Hc : deref (Generic.reset h c) (Generic._pData c) = [])
      by apply deref_write_same.
    assert (Hc' : deref (Generic.reset h c') (Generic._pData c') = [])
      by apply deref_write_same.
    split; cbv zeta; unfold Generic.rowCount; rewrite ?E in *;
      rewrite ?Hc, ?Hc'; (split; [reflexivity|]); (split; [reflexivity|]);
      intros row; split; apply Generic_value_empty; rewrite ?E; assumption.
  - intros o h0 h c c' Hcopy. apply BoolVector_copy_of_pData in Hcopy as E.
    assert (Hc : deref (fst (BoolVector.reset h c)) (BoolVector._pData c) = [])
      by apply deref_write_same.
    assert (Hc' : deref (fst (BoolVector.reset h c')) (BoolVector._pData c') = [])
      by apply deref_write_same.
    split; cbv zeta; unfold BoolVector.rowCount; simpl snd;
      cbn [BoolVector._pData]; rewrite ?E in *; rewrite ?Hc, ?Hc';
      (split; [reflexivity|]); (split; [reflexivity|]);
      intros row; split; apply BoolVector_value_empty;
      cbn [BoolVector._pData]; rewrite ?E; assumption.
  - intros T h c c' Hcopy. apply ListColumn_copy_of_pData in Hcopy as E.
    assert (Hc : deref (ListColumn.reset h c) (ListColumn._pData c) = [])
      by apply deref_write_same.
    assert (Hc' : deref (ListColumn.reset h c') (ListColumn._pData c') = [])
      by apply deref_write_same.
    split; cbv zeta; unfold ListColumn.rowCount; rewrite ?E in *;
      rewrite ?Hc, ?Hc'; (split; [reflexivity|]); (split; [reflexivity|]);
      intros row; split; (eexists; apply ListColumn_value_empty);
      rewrite ?E; assumption.
Qed.

Lemma C9_reset_reaches_every_copy_witness :
  (let c' := Generic.assign Examples.flag_vector Examples.age_vector in
   let h' := Generic.reset Examples.ints c' in
   Generic.rowCount h' Examples.age_vector = 0 /\
   is_RangeException (Generic.value h' Examples.age_vector 0))
  /\
  (let c' := BoolVector.Column_copy Examples.bools Examples.flag_packed in
   let s := BoolVector.reset Examples.bools Examples.flag_packed in
   BoolVector.rowCount (fst s) c' = 0 /\
   is_RangeException
     (fst (BoolVector.value BoolVector.LeftOperandFirst (fst s) c' 1)))
  /\
  (let c' := ListColumn.Column_copy Examples.five_list in
   let h' := ListColumn.reset Examples.ints Examples.five_list in
   ListColumn.rowCount h' c' = 0 /\
   is_RangeException (ListColumn.value h' c' 4)).
Proof.
  destruct C9_reset_reaches_every_copy as (Hg & Hb & Hl).
  split; [|split]; cbv zeta.
  - pose proof (proj2 (Hg Z Examples.ints Examples.age_vector _
                         (Generic.by_assign _ Examples.flag_vector)))
      as (H0 & _ & Hv).
    split; [exact H0 | exact (proj1 (Hv 0))].
  - pose proof (proj1 (Hb BoolVector.LeftOperandFirst Examples.bools
                         Examples.bools Examples.flag_packed _
                         (BoolVector.by_copy _ _)))
      as (_ & H0 & Hv).
    split; [exact H0 | exact (proj2 (Hv 1))].
  - pose proof (proj1 (Hl Z Examples.ints Examples.five_list _
                         (ListColumn.by_copy _)))
      as (_ & H0 & Hv).
    split; [exact H0 | exact (proj2 (Hv 4))].
Defined.

(** C10.  In every variant [operator[](row)] does what [value(row)] does:
    the same returned value or the same exception, and in the boolean
    specialisation the same column state afterwards. *)
Theorem C10_operator_index_is_value :
  (forall (T : Type) (h : store T) (c : Generic.Column) (row : Z),
      Generic.operator_index h c row = Generic.value h c row)
  /\
  (forall (o : BoolVector.operand_order) (h : store bool)
          (c : BoolVector.Column) (row : Z),
      BoolVector.operator_index o h c row = BoolVector.value o h c row /\
      BoolVector.exec o (BoolVector.CallIndex row) (h, c)
      = BoolVector.exec o (BoolVector.CallValue row) (h, c))
  /\
  (forall (T : Type) (h : store T) (c : ListColumn.Column) (row : Z),
      ListColumn.operator_index h c row = ListColumn.value h c row).
Proof.
  split; [|split].
  - intros T h c row. reflexivity.
  - intros o h c row. split; reflexivity.
  - intros T h c row. reflexivity.
Qed.

(** * Further properties of the header *)

(** ** [swap] and assignment *)

(** X1.  [swap] exchanges the two columns entirely — metadata, pointer and,
    in the boolean specialisation, shadow deque — so each column then reads
    what the other read before, and swapping twice restores both. *)
Theorem X1_swap_exchanges :
  (forall (a b : Generic.Column),
      Generic.swap a b = (b, a) /\
      Generic.swap (fst (Generic.swap a b)) (snd (Generic.swap a b)) = (a, b))
  /\
  (forall (a b : BoolVector.Column),
      BoolVector.swap a b = (b, a) /\
      BoolVector.swap (fst (BoolVector.swap a b)) (snd (BoolVector.swap a b))
      = (a, b))
  /\
  (forall (a b : ListColumn.Column),
      ListColumn.swap a b = (b, a) /\
      ListColumn.swap (fst (ListColumn.swap a b)) (snd (ListColumn.swap a b))
      = (a, b))
  /\
  (forall (T : Type) (h : store T) (a b : Generic.Column) (row : Z),
      let s := Generic.swap a b in
      Generic.value h (fst s) row = Generic.value h b row /\
      Generic.value h (snd s) row = Generic.value h a row /\
      Generic.name (fst s) = Generic.name b /\
      Generic.name (snd s) = Generic.name a).
Proof.
  repeat apply conj.
  - intros [ma pa] [mb pb]. now split.
  - intros [ma pa da] [mb pb db]. now split.
  - intros [ma pa] [mb pb]. now split.
  - intros T h [ma pa] [mb pb] row. cbv zeta. simpl. now repeat split.
Qed.

(** X2.  After [a = b] the target is a copy of the source whatever it held
    before: in the primary template and the list specialisation it equals
    the source; in the boolean specialisation it has the source's metadata
    and pointer and a shadow deque rebuilt from the container.  Hence
    self-assignment leaves a column as it is, except that a boolean column
    gets its shadow deque rebuilt, which no [value] call observes. *)
Theorem X2_assignment_copies :
  (forall (this col : Generic.Column),
      Generic.assign this col = col /\ Generic.Column_copy col = col)
  /\
  (forall (this col : ListColumn.Column),
      ListColumn.assign this col = col /\ ListColumn.Column_copy col = col)
  /\
  (forall (o : BoolVector.operand_order) (h : store bool)
          (this col : BoolVector.Column) (row : Z),
      BoolVector.assign h this col = BoolVector.Column_copy h col /\
      BoolVector._metaColumn (BoolVector.assign h this col)
      = BoolVector._metaColumn col /\
      BoolVector._pData (BoolVector.assign h this col) = BoolVector._pData col /\
      BoolVector._deque (BoolVector.assign h this col)
      = BoolVector.data h col /\
      BoolVector.covers (h, BoolVector.assign h this col) /\
      BoolVector.same_outcome
        (fst (BoolVector.value o h (BoolVector.assign h col col) row))
        (fst (BoolVector.value o h col row)) /\
      fst (BoolVector.value BoolVector.RightOperandFirst h
             (BoolVector.assign h col col) row)
      = fst (BoolVector.value BoolVector.RightOperandFirst h col row)).
Proof.
  repeat apply conj.
  - intros this [m p]. now split.
  - intros this [m p]. now split.
  - intros o h this col row. repeat split.
    + unfold BoolVector.covers. simpl. lia.
    + now apply BoolVector_value_shared.
    + now apply BoolVector_value_shared.
Qed.

(** ** What no call changes *)

Lemma BoolVector_exec_snd o (k : BoolVector.call)
    (s : store bool * BoolVector.Column) :
  BoolVector._metaColumn (snd (BoolVector.exec o k s))
  = BoolVector._metaColumn (snd s) /\
  BoolVector._pData (snd (BoolVector.exec o k s)) = BoolVector._pData (snd s).
Proof.
  destruct k; simpl; try (split; reflexivity);
    split; (apply BoolVector_value_metaColumn || apply BoolVector_value_pData).
Qed.

Lemma BoolVector_run_snd o (ks : list BoolVector.call) :
  forall s : store bool * BoolVector.Column,
    BoolVector._metaColumn (snd (BoolVector.run o ks s))
    = BoolVector._metaColumn (snd s) /\
    BoolVector._pData (snd (BoolVector.run o ks s)) = BoolVector._pData (snd s).
Proof.
  unfold BoolVector.run.
  induction ks as [|k ks IH]; intros s; [now split|].
  simpl. destruct (IH (BoolVector.exec o k s)) as [Hm Hp].
  destruct (BoolVector_exec_snd o k s) as [Hm' Hp'].
  split; congruence.
Qed.

(** X3.  No sequence of calls ([value], [operator[]], [rowCount], [reset],
    updates through [data()]) changes a column's metadata or the container
    it points to: [name], [length], [precision], [position] and [type]
    answer the same before and after.  In the primary template and the list
    specialisation the column object is not changed at all. *)
Theorem X3_calls_keep_metadata_and_pointer :
  (forall (T : Type) (ks : list (Generic.call (T := T)))
          (s : store T * Generic.Column),
      snd (Generic.run ks s) = snd s)
  /\
  (forall (T : Type) (ks : list (ListColumn.call (T := T)))
          (s : store T * ListColumn.Column),
      snd (ListColumn.run ks s) = snd s)
  /\
  (forall (o : BoolVector.operand_order) (ks : list BoolVector.call)
          (s : store bool * BoolVector.Column),
      let c' := snd (BoolVector.run o ks s) in
      BoolVector._pData c' = BoolVector._pData (snd s) /\
      BoolVector.name c' = BoolVector.name (snd s) /\
      BoolVector.length c' = BoolVector.length (snd s) /\
      BoolVector.precision c' = BoolVector.precision (snd s) /\
      BoolVector.position c' = BoolVector.position (snd s) /\
      BoolVector.type c' = BoolVector.type (snd s)).
Proof.
  split; [|split].
  - intros T ks s. apply Generic_run_snd.
  - intros T ks s. apply ListColumn_run_snd.
  - intros o ks s c'. destruct (BoolVector_run_snd o ks s) as [Hm Hp].
    unfold BoolVector.name, BoolVector.length, BoolVector.precision,
      BoolVector.position, BoolVector.type, c'.
    rewrite Hm. now repeat split.
Qed.

(** ** Columns over different containers *)

(** [value] on a boolean column reads the store only at the column's
    pointer. *)
Lemma BoolVector_value_store o (h h' : store bool) (c : BoolVector.Column) row :
  deref h' (BoolVector._pData c) = deref h (BoolVector._pData c) ->
  BoolVector.value o h' c row = BoolVector.value o h c row.
Proof.
  intros E.
  assert (Hsync : BoolVector.sync h' c = BoolVector.sync h c)
    by (unfold BoolVector.sync; now rewrite E).
  assert (Hops : BoolVector.operands o h' (BoolVector.sync h c) row
                 = BoolVector.operands o h (BoolVector.sync h c) row)
    by (unfold BoolVector.operands; now rewrite !sync_pData, E).
  unfold BoolVector.value. cbv zeta. now rewrite Hsync, Hops.
Qed.

(** X4.  Emptying or updating the container of one column leaves every
    column that points to another container as it was: its [data()],
    [rowCount()] and [value()] are unchanged. *)
Theorem X4_other_containers_untouched :
  (forall (T : Type) (h : store T) (c1 c2 : Generic.Column)
          (f : list T -> list T) (row : Z),
      Generic._pData c1 <> Generic._pData c2 ->
      (Generic.data (Generic.reset h c1) c2 = Generic.data h c2 /\
       Generic.rowCount (Generic.reset h c1) c2 = Generic.rowCount h c2 /\
       Generic.value (Generic.reset h c1) c2 row = Generic.value h c2 row) /\
      (Generic.data (Generic.data_update f h c1) c2 = Generic.data h c2 /\
       Generic.rowCount (Generic.data_update f h c1) c2
       = Generic.rowCount h c2 /\
       Generic.value (Generic.data_update f h c1) c2 row
       = Generic.value h c2 row))
  /\
  (forall (o : BoolVector.operand_order) (h : store bool)
          (c1 c2 : BoolVector.Column) (f : list bool -> list bool) (row : Z),
      BoolVector._pData c1 <> BoolVector._pData c2 ->
      (BoolVector.data (fst (BoolVector.reset h c1)) c2 = BoolVector.data h c2 /\
       BoolVector.rowCount (fst (BoolVector.reset h c1)) c2
       = BoolVector.rowCount h c2 /\
       BoolVector.value o (fst (BoolVector.reset h c1)) c2 row
       = BoolVector.value o h c2 row) /\
      (BoolVector.data (BoolVector.data_update f h c1) c2
       = BoolVector.data h c2 /\
       BoolVector.rowCount (BoolVector.data_update f h c1) c2
       = BoolVector.rowCount h c2 /\
       BoolVector.value o (BoolVector.data_update f h c1) c2 row
       = BoolVector.value o h c2 row))
  /\
  (forall (T : Type) (h : store T) (c1 c2 : ListColumn.Column)
          (f : list T -> list T) (row : Z),
      ListColumn._pData c1 <> ListColumn._pData c2 ->
      (ListColumn.data (ListColumn.reset h c1) c2 = ListColumn.data h c2 /\
       ListColumn.rowCount (ListColumn.reset h c1) c2
       = ListColumn.rowCount h c2 /\
       ListColumn.value (ListColumn.reset h c1) c2 row
       = ListColumn.value h c2 row) /\
      (ListColumn.data (ListColumn.data_update f h c1) c2
       = ListColumn.data h c2 /\
       ListColumn.rowCount (ListColumn.data_update f h c1) c2
       = ListColumn.rowCount h c2 /\
       ListColumn.value (ListColumn.data_update f h c1) c2 row
       = ListColumn.value h c2 row)).
Proof.
  split; [|split].
  - intros T h c1 c2 f row Hne.
    unfold Generic.value, Generic.rowCount, Generic.data_update, Generic.reset,
      Generic.data.
    rewrite !deref_write_other by exact Hne. now repeat split.
  - intros o h c1 c2 f row Hne.
    rewrite (BoolVector_value_store o h (fst (BoolVector.reset h c1)) c2),
      (BoolVector_value_store o h (BoolVector.data_update f h c1) c2)
      by (apply deref_write_other; exact Hne).
    unfold BoolVector.rowCount, BoolVector.data_update, BoolVector.reset,
      BoolVector.data. simpl fst.
    rewrite !deref_write_other by exact Hne. now repeat split.
  - intros T h c1 c2 f row Hne.
    unfold ListColumn.value, ListColumn.rowCount, ListColumn.data_update,
      ListColumn.reset, ListColumn.data.
    rewrite !deref_write_other by exact Hne. now repeat split.
Qed.

Lemma X4_other_containers_untouched_witness :
  Generic.value (Generic.reset Examples.ints Examples.age_vector)
    (Generic.mkColumn Examples.age 3%positive) 4
  = Generic.value Examples.ints (Generic.mkColumn Examples.age 3%positive) 4
  /\
  ListColumn.value
    (ListColumn.data_update (fun l => 0 :: l) Examples.ints Examples.five_list)
    Examples.age_list 2
  = ListColumn.value Examples.ints Examples.age_list 2.
Proof.
  destruct X4_other_containers_untouched as (Hg & _ & Hl).
  split.
  - refine (proj2 (proj2 (proj1 (Hg Z Examples.ints Examples.age_vector
              (Generic.mkColumn Examples.age 3%positive) (fun l => l) 4 _)))).
    discriminate.
  - refine (proj2 (proj2 (proj2 (Hl Z Examples.ints Examples.five_list
              Examples.age_list (fun l => 0 :: l) 2 _)))).
    discriminate.
Defined.

(** ** [reset] followed by new content *)

(** X5.  A column that was [reset()] and then filled again through
    [data()] works as a fresh one: [rowCount()] is the size of the new
    content and [value(row)] returns its elements (in the list
    specialisation for new content of fewer than [INT_MAX] elements, the
    range of the [int] loop counter).  In the boolean
    specialisation the first [value] after the refill rebuilds the emptied
    shadow deque to the new size, all [false] but the slot just read. *)
Theorem X5_reset_then_refill :
  (forall (T : Type) (h : store T) (c : Generic.Column)
          (f : list T -> list T) (row : Z) (x : T),
      let h' := Generic.data_update f (Generic.reset h c) c in
      Generic.data h' c = f [] /\
      Generic.rowCount h' c = Std.size (f []) /\
      (0 <= row -> f [] !! Z.to_nat row = Some x ->
       Generic.value h' c row = Ok x))
  /\
  (forall (o : BoolVector.operand_order) (h : store bool)
          (c : BoolVector.Column) (f : list bool -> list bool)
          (row : Z) (x : bool),
      let s1 := BoolVector.reset h c in
      let h' := BoolVector.data_update f (fst s1) (snd s1) in
      BoolVector.data h' (snd s1) = f [] /\
      BoolVector.rowCount h' (snd s1) = Std.size (f []) /\
      (0 <= row -> f [] !! Z.to_nat row = Some x ->
       BoolVector.value o h' (snd s1) row
       = (Ok x,
          BoolVector.mkColumn (BoolVector._metaColumn c) (BoolVector._pData c)
            (<[Z.to_nat row := x]> (replicate (length (f [])) false)))))
  /\
  (forall (T : Type) (h : store T) (c : ListColumn.Column)
          (f : list T -> list T) (row : Z) (x : T),
      let h' := ListColumn.data_update f (ListColumn.reset h c) c in
      ListColumn.data h' c = f [] /\
      ListColumn.rowCount h' c = Std.size (f []) /\
      (ListColumn.counter_fits (f []) ->
       0 <= row -> f [] !! Z.to_nat row = Some x ->
       ListColumn.value h' c row = Ok x)).
Proof.
  split; [|split].
  - intros T h c f row x h'.
    assert (E : deref h' (Generic._pData c) = f []).
    { unfold h', Generic.data_update, Generic.data, Generic.reset.
      now rewrite !deref_write_same. }
    unfold Generic.data, Generic.rowCount. rewrite E.
    split; [reflexivity|]. split; [reflexivity|].
    intros Hrow Hx. apply Generic_value_in_range; [exact Hrow|].
    now rewrite E.
  - intros o h c f row x s1 h'.
    assert (E : deref h' (BoolVector._pData c) = f []).
    { unfold h', s1, BoolVector.data_update, BoolVector.data, BoolVector.reset.
      simpl. now rewrite !deref_write_same. }
    unfold BoolVector.data, BoolVector.rowCount. simpl. rewrite E.
    split; [reflexivity|]. split; [reflexivity|].
    intros Hrow Hx.
    rewrite (BoolVector_value_in_range o h' _ row x Hrow)
      by (simpl; now rewrite E).
    simpl. do 2 f_equal.
    unfold BoolVector.sync. simpl. rewrite E.
    apply lookup_lt_Some in Hx.
    destruct (Z.ltb_spec (Std.size (@nil bool)) (Std.size (f []))) as [_|Hge];
      [|unfold Std.size in Hge; simpl in Hge; lia].
    simpl. unfold Std.resize_bool, Std.size.
    now rewrite resize_nil, Nat2Z.id.
  - intros T h c f row x h'.
    assert (E : deref h' (ListColumn._pData c) = f []).
    { unfold h', ListColumn.data_update, ListColumn.data, ListColumn.reset.
      now rewrite !deref_write_same. }
    unfold ListColumn.data, ListColumn.rowCount. rewrite E.
    split; [reflexivity|]. split; [reflexivity|].
    intros Hfit Hrow Hx.
    apply ListColumn_value_in_range; rewrite ?E; assumption.
Qed.

Lemma X5_reset_then_refill_witness :
  Generic.value
    (Generic.data_update (fun l => l ++ [7; 8])
       (Generic.reset Examples.ints Examples.age_vector) Examples.age_vector)
    Examples.age_vector 1 = Ok 8
  /\
  BoolVector.value BoolVector.RightOperandFirst
    (BoolVector.data_update (fun l => l ++ [false; true])
       (fst (BoolVector.reset Examples.bools Examples.flag_packed))
       (snd (BoolVector.reset Examples.bools Examples.flag_packed)))
    (snd (BoolVector.reset Examples.bools Examples.flag_packed)) 1
  = (Ok true, BoolVector.mkColumn Examples.flag 2%positive [false; true])
  /\
  ListColumn.value
    (ListColumn.data_update (fun l => l ++ [7; 8])
       (ListColumn.reset Examples.ints Examples.age_list) Examples.age_list)
    Examples.age_list 0 = Ok 7.
Proof.
  destruct X5_reset_then_refill as (Hg & Hb & Hl).
  split; [|split].
  - refine (proj2 (proj2 (Hg Z Examples.ints Examples.age_vector
                            (fun l => l ++ [7; 8]) 1 8)) _ _); by_evaluation.
  - refine (proj2 (proj2 (Hb BoolVector.RightOperandFirst Examples.bools
                            Examples.flag_packed (fun l => l ++ [false; true])
                            1 true)) _ _); by_evaluation.
  - refine (proj2 (proj2 (Hl Z Examples.ints Examples.age_list
                            (fun l => l ++ [7; 8]) 0 7)) _ _ _); by_evaluation.
Defined.

(** ** Iteration and indexing *)

(** X6.  Indexing agrees with iteration: [value(0)], ..., [value(n-1)] for
    [n = rowCount()] are the elements that [begin()] .. [end()] run over,
    in order (for a list short enough for the [int] loop counter). *)
Theorem X6_value_follows_iteration :
  (forall (T : Type) (h : store T) (c : Generic.Column),
      Generic.value h c <$> seqZ 0 (Generic.rowCount h c)
      = Ok <$> Generic.elements h c)
  /\
  (forall (T : Type) (h : store T) (c : ListColumn.Column),
      ListColumn.counter_fits (deref h (ListColumn._pData c)) ->
      ListColumn.value h c <$> seqZ 0 (ListColumn.rowCount h c)
      = Ok <$> ListColumn.elements h c).
Proof.
  split.
  - intros T h c. apply list_eq. intros i. rewrite !list_lookup_fmap.
    unfold Generic.elements, Generic.rowCount.
    destruct (deref h (Generic._pData c) !! i) as [x|] eqn:E.
    + apply lookup_lt_Some in E as Hlt.
      rewrite lookup_seqZ_lt by (unfold Std.size; lia). simpl.
      rewrite Z.add_0_l. f_equal.
      apply Generic_value_in_range; [lia | now rewrite Nat2Z.id].
    + apply lookup_ge_None in E.
      now rewrite lookup_seqZ_ge by (unfold Std.size; lia).
  - intros T h c Hfit. apply list_eq. intros i. rewrite !list_lookup_fmap.
    unfold ListColumn.elements, ListColumn.rowCount.
    destruct (deref h (ListColumn._pData c) !! i) as [x|] eqn:E.
    + apply lookup_lt_Some in E as Hlt.
      rewrite lookup_seqZ_lt by (unfold Std.size; lia). simpl.
      rewrite Z.add_0_l. f_equal.
      apply ListColumn_value_in_range;
        [exact Hfit | lia | now rewrite Nat2Z.id].
    + apply lookup_ge_None in E.
      now rewrite lookup_seqZ_ge by (unfold Std.size; lia).
Qed.

Lemma X6_value_follows_iteration_witness :
  ListColumn.value Examples.ints Examples.five_list
    <$> seqZ 0 (ListColumn.rowCount Examples.ints Examples.five_list)
  = Ok <$> ListColumn.elements Examples.ints Examples.five_list.
Proof.
  apply (proj2 X6_value_follows_iteration Z Examples.ints Examples.five_list).
  by_evaluation.
Defined.

(** ** The shadow deque *)

(** On deques of the same length [at] succeeds or fails alike. *)
Lemma at_same_length {A} what (d1 d2 : list A) n :
  length d1 = length d2 ->
  (exists y1 y2, Std.at_ what d1 n = Ok y1 /\ Std.at_ what d2 n = Ok y2) \/
  (Std.at_ what d1 n = Throw (std_out_of_range what) /\
   Std.at_ what d2 n = Throw (std_out_of_range what)).
Proof.
  intros Hlen. unfold Std.at_, Std.size. rewrite Hlen.
  destruct (Z.of_nat (length d2) <=? n); [now right|].
  destruct (d1 !! Z.to_nat n) as [y1|] eqn:E1.
  - apply lookup_lt_Some in E1. rewrite Hlen in E1.
    destruct (lookup_lt_is_Some_2 d2 _ E1) as [y2 ->]. left. now exists y1, y2.
  - apply lookup_ge_None in E1. rewrite Hlen in E1.
    apply lookup_ge_None in E1. rewrite E1. now right.
Qed.

Lemma operands_same_length o (h : store bool) m p (d1 d2 : list bool) row :
  length d1 = length d2 ->
  BoolVector.operands o h (BoolVector.mkColumn m p d1) row
  = BoolVector.operands o h (BoolVector.mkColumn m p d2) row.
Proof.
  intros Hlen. unfold BoolVector.operands. simpl.
  destruct (at_same_length Std.deque_what d1 d2 row Hlen)
    as [(y1 & y2 & -> & ->) | [-> ->]]; reflexivity.
Qed.

(** X7.  [value] is idempotent: a second [value(row)] right after the first
    returns or throws the same and leaves the column object as the first
    call left it. *)
Theorem X7_value_twice :
  forall (o : BoolVector.operand_order) (h : store bool)
         (c : BoolVector.Column) (row : Z),
    BoolVector.value o h (snd (BoolVector.value o h c row)) row
    = BoolVector.value o h c row.
Proof.
  intros o h c row.
  pose proof (sync_covers h c) as Hcov.
  rewrite <- (sync_pData h c) in Hcov.
  unfold BoolVector.value at 2 3. cbv zeta.
  destruct (BoolVector.sync h c) as [m p d] eqn:Ec1. simpl in Hcov.
  destruct (catch_out_of_range _) as [b | e | ] eqn:Er; simpl.
  - unfold BoolVector.value. cbv zeta.
    rewrite sync_idle
      by (simpl; unfold Std.size in *; now rewrite length_insert).
    rewrite (operands_same_length o h m p _ d) by apply length_insert.
    rewrite Er. simpl. now rewrite list_insert_insert_eq.
  - unfold BoolVector.value. cbv zeta.
    rewrite sync_idle by exact Hcov. now rewrite Er.
  - unfold BoolVector.value. cbv zeta.
    rewrite sync_idle by exact Hcov. now rewrite Er.
Qed.

(** What one [value] call does to the slots of the shadow deque. *)
Lemma BoolVector_value_deque o (h : store bool) (c : BoolVector.Column) row :
  BoolVector._deque (snd (BoolVector.value o h c row))
  = BoolVector._deque (BoolVector.sync h c) \/
  exists b, BoolVector._deque (snd (BoolVector.value o h c row))
            = <[Z.to_nat row := b]> (BoolVector._deque (BoolVector.sync h c)).
Proof.
  unfold BoolVector.value. cbv zeta.
  destruct (catch_out_of_range _) as [b | e | ]; simpl; [right | left | left];
    eauto.
Qed.

(** X8.  A [value(row)] call never shortens the shadow deque and never
    changes a slot other than [row]: the deque afterwards has the length of
    the longer of deque and container, and every other slot it had before
    holds what it held. *)
Theorem X8_value_writes_one_slot :
  forall (o : BoolVector.operand_order) (h : store bool)
         (c : BoolVector.Column) (row : Z),
    let c' := snd (BoolVector.value o h c row) in
    Std.size (BoolVector._deque c')
    = Z.max (Std.size (BoolVector._deque c)) (BoolVector.rowCount h c) /\
    (forall (i : nat) (y : bool),
        i <> Z.to_nat row ->
        BoolVector._deque c !! i = Some y ->
        BoolVector._deque c' !! i = Some y).
Proof.
  intros o h c row c'.
  assert (Hlen : Std.size (BoolVector._deque (BoolVector.sync h c))
                 = Z.max (Std.size (BoolVector._deque c))
                         (BoolVector.rowCount h c)).
  { unfold BoolVector.sync, BoolVector.rowCount.
    destruct (Z.ltb_spec (Std.size (BoolVector._deque c))
                (Std.size (deref h (BoolVector._pData c)))) as [Hlt|Hge].
    - simpl. unfold Std.resize_bool, Std.size at 1. rewrite length_resize.
      unfold Std.size in *. lia.
    - lia. }
  assert (Hold : forall i y, BoolVector._deque c !! i = Some y ->
                   BoolVector._deque (BoolVector.sync h c) !! i = Some y).
  { intros i y Hy. destruct (sync_grows h c) as [k ->].
    now apply lookup_app_l_Some. }
  destruct (BoolVector_value_deque o h c row) as [E | [b E]];
    unfold c'; rewrite E; split.
  - exact Hlen.
  - intros i y _. apply Hold.
  - unfold Std.size at 1. rewrite length_insert. exact Hlen.
  - intros i y Hne Hy. rewrite list_lookup_insert_ne by congruence.
    now apply Hold.
Qed.

Lemma X8_value_writes_one_slot_witness :
  BoolVector._deque
    (snd (BoolVector.value BoolVector.RightOperandFirst Examples.bools
            Examples.flag_packed 1)) !! 2%nat = Some true.
Proof.
  apply (proj2 (X8_value_writes_one_slot BoolVector.RightOperandFirst
                  Examples.bools Examples.flag_packed 1)).
  - by_evaluation.
  - by_evaluation.
Defined.

(** A slot that already mirrors the container keeps doing so through any
    sequence of valid reads. *)
Lemma read_rows_keeps_slot o (h : store bool) (rows : list Z) :
  forall (c : BoolVector.Column) (i : nat) (x : bool),
    Forall (fun row => 0 <= row < BoolVector.rowCount h c) rows ->
    deref h (BoolVector._pData c) !! i = Some x ->
    BoolVector._deque c !! i = Some x ->
    BoolVector._deque (snd (BoolVector.read_rows o h c rows)) !! i = Some x.
Proof.
  induction rows as [|row rows IH]; intros c i x Hrows Hdata Hslot;
    [exact Hslot|].
  apply Forall_cons in Hrows as [Hrow Hrows].
  destruct (lookup_in_range _ row Hrow) as [y Hy].
  simpl. rewrite (BoolVector_value_in_range o h c row y) by (lia || exact Hy).
  set (c1 := BoolVector.mkColumn _ _ _).
  specialize (IH c1 i x Hrows Hdata).
  destruct (BoolVector.read_rows o h c1 rows) as [rs c2]. simpl in *.
  apply IH.
  destruct (sync_grows h c) as [k Hk].
  assert (Hsync : BoolVector._deque (BoolVector.sync h c) !! i = Some x)
    by (rewrite Hk; now apply lookup_app_l_Some).
  destruct (decide (Z.to_nat row = i)) as [<- | Hne].
  - rewrite list_lookup_insert_eq by (now apply lookup_lt_Some in Hsync).
    congruence.
  - now rewrite list_lookup_insert_ne.
Qed.

(** X9.  After reading a sequence of valid rows, in any order, the shadow
    deque mirrors the container at every row that was read; once every row
    has been read, the first [rowCount()] slots of the deque are the
    container. *)
Theorem X9_reads_bring_shadow_in_sync :
  forall (o : BoolVector.operand_order) (h : store bool)
         (c : BoolVector.Column) (rows : list Z),
    Forall (fun row => 0 <= row < BoolVector.rowCount h c) rows ->
    let c' := snd (BoolVector.read_rows o h c rows) in
    (forall row, row ∈ rows ->
       BoolVector._deque c' !! Z.to_nat row
       = deref h (BoolVector._pData c) !! Z.to_nat row) /\
    ((forall row, 0 <= row < BoolVector.rowCount h c -> row ∈ rows) ->
     take (length (deref h (BoolVector._pData c))) (BoolVector._deque c')
     = deref h (BoolVector._pData c)).
Proof.
  intros o h c rows Hrows c'.
  assert (Hread : forall row, row ∈ rows ->
            BoolVector._deque c' !! Z.to_nat row
            = deref h (BoolVector._pData c) !! Z.to_nat row).
  { unfold c'. clear c'. revert c Hrows.
    induction rows as [|r rows IH]; intros c Hrows row Hin;
      [now apply elem_of_nil in Hin|].
    apply Forall_cons in Hrows as [Hr Hrows].
    destruct (lookup_in_range _ r Hr) as [y Hy].
    simpl. rewrite (BoolVector_value_in_range o h c r y) by (lia || exact Hy).
    set (c1 := BoolVector.mkColumn _ _ _).
    pose proof (IH c1 Hrows row) as IH1.
    pose proof (read_rows_keeps_slot o h rows c1 (Z.to_nat r) y Hrows Hy) as Hkeep.
    destruct (BoolVector.read_rows o h c1 rows) as [rs c2]. simpl in *.
    apply elem_of_cons in Hin as [-> | Hin]; [|now apply IH1].
    rewrite Hy. apply Hkeep.
    apply list_lookup_insert_eq.
    pose proof (sync_covers h c) as Hcov. apply lookup_lt_Some in Hy.
    unfold Std.size in Hcov. lia. }
  split; [exact Hread|].
  intros Hall. apply list_eq. intros i.
  destruct (decide (i < length (deref h (BoolVector._pData c))))%nat
    as [Hlt | Hge].
  - rewrite lookup_take_lt by exact Hlt.
    rewrite <- (Nat2Z.id i). apply Hread, Hall.
    unfold BoolVector.rowCount, Std.size. lia.
  - rewrite lookup_take_ge by lia. symmetry. apply lookup_ge_None. lia.
Qed.

Lemma X9_reads_bring_shadow_in_sync_witness :
  take 3 (BoolVector._deque
            (snd (BoolVector.read_rows BoolVector.LeftOperandFirst
                    Examples.bools Examples.flag_stale [2; 0; 1])))
  = deref Examples.bools 2%positive.
Proof.
  refine (proj2 (X9_reads_bring_shadow_in_sync BoolVector.LeftOperandFirst
                   Examples.bools Examples.flag_stale [2; 0; 1] _) _).
  - repeat (apply Forall_cons_2; [by_evaluation|]). apply Forall_nil_2.
  - intros row Hrow.
    assert (E : BoolVector.rowCount Examples.bools Examples.flag_stale = 3)
      by (vm_compute; reflexivity).
    rewrite E in Hrow.
    assert (row = 0 \/ row = 1 \/ row = 2) as [-> | [-> | ->]] by lia;
      rewrite !elem_of_cons; auto.
Defined.

Lemma BoolVector_value_covers o (h : store bool) (c : BoolVector.Column) row :
  BoolVector.covers (h, snd (BoolVector.value o h c row)).
Proof.
  unfold BoolVector.covers. simpl. rewrite BoolVector_value_pData.
  destruct (BoolVector_value_deque o h c row) as [-> | [b ->]].
  - apply sync_covers.
  - unfold Std.size at 2. rewrite length_insert. apply sync_covers.
Qed.

Lemma BoolVector_exec_covers o (k : BoolVector.call)
    (s : store bool * BoolVector.Column) :
  BoolVector.is_data_call k = false ->
  BoolVector.covers s -> BoolVector.covers (BoolVector.exec o k s).
Proof.
  intros Hk Hs. destruct k; simpl in *; try discriminate.
  - apply BoolVector_value_covers.
  - apply BoolVector_value_covers.
  - exact Hs.
  - unfold BoolVector.covers. simpl. rewrite deref_write_same. reflexivity.
Qed.

(** X10.  The shadow deque has a slot for every element of the container
    right after construction and after copy construction, and it keeps that
    through every sequence of calls in which the caller does not touch the
    container through [data()].  An update through [data()] can break it
    (the container grows, the deque does not), and the next [value] call
    restores it from any state. *)
Theorem X10_shadow_covers_invariant :
  (forall (meta : MetaColumn) (p : addr) (h : store bool),
      exists c, BoolVector.Column_new meta (Some p) h = Some c /\
                BoolVector.covers (h, c))
  /\
  (forall (h : store bool) (col : BoolVector.Column),
      BoolVector.covers (h, BoolVector.Column_copy h col))
  /\
  (forall (o : BoolVector.operand_order) (ks : list BoolVector.call)
          (s : store bool * BoolVector.Column),
      BoolVector.covers s ->
      forallb (fun k => negb (BoolVector.is_data_call k)) ks = true ->
      BoolVector.covers (BoolVector.run o ks s))
  /\
  (forall (o : BoolVector.operand_order) (s : store bool * BoolVector.Column)
          (row : Z),
      BoolVector.covers (BoolVector.exec o (BoolVector.CallValue row) s))
  /\
  (exists (h : store bool) (c : BoolVector.Column) (f : list bool -> list bool),
      BoolVector.covers (h, c) /\
      ~ BoolVector.covers
          (BoolVector.exec BoolVector.RightOperandFirst
             (BoolVector.CallData f) (h, c))).
Proof.
  repeat apply conj.
  - intros meta p h. eexists. split; [reflexivity|].
    unfold BoolVector.covers. simpl. lia.
  - intros h col. unfold BoolVector.covers. simpl. lia.
  - intros o ks. unfold BoolVector.run.
    induction ks as [|k ks IH]; intros s Hs Hks; [exact Hs|].
    simpl in Hks. apply andb_prop in Hks as [Hk Hks].
    simpl. apply IH; [|exact Hks].
    apply BoolVector_exec_covers; [|exact Hs].
    now destruct (BoolVector.is_data_call k).
  - intros o [h c] row. apply BoolVector_value_covers.
  - exists Examples.bools, Examples.flag_packed, (fun l => l ++ [true]).
    split; vm_compute; [discriminate | intros H; now apply H].
Qed.

Lemma X10_shadow_covers_invariant_witness :
  BoolVector.covers
    (BoolVector.run BoolVector.LeftOperandFirst
       [BoolVector.CallValue 7; BoolVector.CallReset; BoolVector.CallRowCount;
        BoolVector.CallIndex 0]
       (Examples.bools, Examples.flag_packed)).
Proof.
  apply (proj1 (proj2 (proj2 X10_shadow_covers_invariant))).
  - by_evaluation.
  - reflexivity.
Defined.

(** ** How far the list specialisation walks *)

Section ListSteps.
Context {T : Type}.
Implicit Types (l : list T) (row i : Z).

Lemma walk_steps_found l : forall i row x,
  0 <= i -> i + Std.size l <= Platform.INT_MAX -> i <= row ->
  l !! Z.to_nat (row - i) = Some x ->
  ListColumn.walk_steps row i l = S (Z.to_nat (row - i)).
Proof.
  induction l as [|y l IH]; intros i row x Hi Hfit Hle Hx; [discriminate|].
  rewrite size_cons in Hfit. pose proof (size_nonneg l) as Hl.
  simpl. rewrite to_size_t_small by (apply INT_MAX_is_size_t; lia).
  destruct (Z.eqb_spec i row) as [-> | Hne].
  - now rewrite Z.sub_diag.
  - destruct (Z.ltb_spec i Platform.INT_MAX) as [_ | Hge]; [|lia].
    replace (Z.to_nat (row - i)) with (S (Z.to_nat (row - (i + 1)))) in *
      by lia.
    f_equal. apply (IH _ _ x); try lia. exact Hx.
Qed.

Lemma walk_steps_exhausted l : forall i row,
  0 <= i -> i + Std.size l <= Platform.INT_MAX ->
  row < i \/ i + Std.size l <= row ->
  ListColumn.walk_steps row i l = length l.
Proof.
  induction l as [|y l IH]; intros i row Hi Hfit Hout; [reflexivity|].
  rewrite size_cons in Hfit, Hout. pose proof (size_nonneg l) as Hl.
  simpl. rewrite to_size_t_small by (apply INT_MAX_is_size_t; lia).
  destruct (Z.eqb_spec i row) as [-> | Hne]; [lia|].
  destruct (Z.ltb_spec i Platform.INT_MAX) as [_ | Hge]; [|lia].
  f_equal. apply IH; lia.
Qed.

End ListSteps.

(** X11.  The list specialisation starts from the nearer end: for a valid
    row it visits [row + 1] elements walking forward when
    [row <= size / 2] and [size - row] elements walking backward otherwise,
    so never more than [size / 2 + 1]; for a row at or past the end it
    walks the whole list before it throws.  (Rows are [std::size_t]; the
    list is short enough for the [int] loop counter.) *)
Theorem X11_list_walks_from_nearer_end :
  forall (T : Type) (h : store T) (c : ListColumn.Column) (row : Z),
    let l := deref h (ListColumn._pData c) in
    ListColumn.counter_fits l ->
    Platform.is_size_t row ->
    (row < Std.size l ->
     Z.of_nat (ListColumn.value_steps h c row)
     = (if row <=? Std.size l / 2 then row + 1 else Std.size l - row) /\
     Z.of_nat (ListColumn.value_steps h c row) <= Std.size l / 2 + 1) /\
    (Std.size l <= row ->
     ListColumn.value_steps h c row = length l).
Proof.
  intros T h c row l Hfit [Hrow0 Hrow1].
  unfold ListColumn.counter_fits in Hfit.
  pose proof (size_nonneg l) as Hl.
  unfold ListColumn.value_steps. fold l. cbv zeta. split.
  - intros Hrow.
    destruct (lookup_in_range l row (conj Hrow0 Hrow)) as [x Hx].
    destruct (Z.leb_spec row (Std.size l / 2)) as [Hhalf | Hhalf].
    + assert (E : ListColumn.walk_steps row 0 l = S (Z.to_nat (row - 0))).
      { apply (walk_steps_found l 0 row x); try lia.
        now rewrite Z.sub_0_r. }
      rewrite E. lia.
    + rewrite size_t_sub_no_borrow
        by (unfold Platform.INT_MAX, Platform.SIZE_MOD in *; lia).
      assert (E : ListColumn.walk_steps (Std.size l - row) 1 (reverse l)
                  = S (Z.to_nat (Std.size l - row - 1))).
      { apply (walk_steps_found (reverse l) 1 (Std.size l - row) x);
          rewrite ?size_reverse; try lia.
        exact (reverse_lookup_row l row x Hrow0 Hx). }
      rewrite E. split; [lia|].
      assert (Std.size l <= 2 * (Std.size l / 2) + 1)
        by (pose proof (Z.mod_pos_bound (Std.size l) 2);
            pose proof (Z.div_mod (Std.size l) 2); lia).
      lia.
  - intros Hrow.
    destruct (Z.leb_spec row (Std.size l / 2)) as [Hhalf | Hhalf].
    + apply walk_steps_exhausted; lia.
    + rewrite walk_steps_exhausted; rewrite ?size_reverse, ?length_reverse;
        try lia.
      destruct (Z.eq_dec row (Std.size l)) as [-> | Hne].
      * left. rewrite size_t_sub_no_borrow by lia. lia.
      * right. rewrite size_t_sub_borrow by lia. lia.
Qed.

Lemma X11_list_walks_from_nearer_end_witness :
  Z.of_nat (ListColumn.value_steps Examples.ints Examples.five_list 4) = 1 /\
  ListColumn.value_steps Examples.ints Examples.five_list 9 = 5%nat.
Proof.
  split.
  - refine (proj1 (proj1 (X11_list_walks_from_nearer_end Z Examples.ints
                            Examples.five_list 4 _ _) _)); by_evaluation.
  - refine (proj2 (X11_list_walks_from_nearer_end Z Examples.ints
                     Examples.five_list 9 _ _) _); by_evaluation.
Defined.

(** ** The three variants on every row *)

(** X12.  The two specialisations behave as the primary template does on
    every [std::size_t] row, valid or not, and from every state of the
    shadow deque: over the same content all three return the same element or
    all three throw a [RangeException] (the message texts differ). *)
Theorem X12_variants_agree_on_every_row :
  (forall (o : BoolVector.operand_order) (hg hb : store bool)
          (g : Generic.Column) (b : BoolVector.Column) (row : Z),
      deref hb (BoolVector._pData b) = deref hg (Generic._pData g) ->
      agree (fst (BoolVector.value o hb b row)) (Generic.value hg g row))
  /\
  (forall (T : Type) (hg hl : store T) (g : Generic.Column)
          (l : ListColumn.Column) (row : Z),
      deref hl (ListColumn._pData l) = deref hg (Generic._pData g) ->
      ListColumn.counter_fits (deref hl (ListColumn._pData l)) ->
      Platform.is_size_t row ->
      agree (ListColumn.value hl l row) (Generic.value hg g row)).
Proof.
  split.
  - intros o hg hb g b row E.
    pose proof (BoolVector_value_any o hb b row) as Hb. rewrite E in Hb.
    unfold Generic.value.
    destruct (at_cases Std.vector_bool_what (deref hg (Generic._pData g)) row)
      as [[x Hx] | Hx]; rewrite Hx in Hb; simpl in Hb.
    + apply at_Ok_inv in Hx as [Hlt Hx].
      assert (Hg : Std.at_ Std.vector_what (deref hg (Generic._pData g)) row
                   = Ok x).
      { unfold Std.at_. rewrite Hx.
        destruct (Z.leb_spec (Std.size (deref hg (Generic._pData g))) row);
          [lia | reflexivity]. }
      rewrite Hg. simpl.
      destruct (fst (BoolVector.value o hb b row)) as [a | [w | m] | ];
        simpl in *; try contradiction; exact Hb.
    + assert (Hg : Std.at_ Std.vector_what (deref hg (Generic._pData g)) row
                   = Throw (std_out_of_range Std.vector_what)).
      { destruct (at_cases Std.vector_what (deref hg (Generic._pData g)) row)
          as [[y Hy] | Hy]; [|exact Hy].
        apply at_Ok_inv in Hy as [Hlt Hy].
        unfold Std.at_ in Hx. rewrite Hy in Hx.
        destruct (Z.leb_spec (Std.size (deref hg (Generic._pData g))) row);
          [lia | discriminate]. }
      rewrite Hg. simpl.
      destruct (fst (BoolVector.value o hb b row)) as [a | [w | m] | ];
        simpl in *; try contradiction; exact I.
  - intros T hg hl g l row E Hfit Hsz.
    destruct (Z.lt_ge_cases row (Generic.rowCount hg g)) as [Hlt | Hge].
    + destruct Hsz as [Hrow0 _].
      destruct (lookup_in_range _ row (conj Hrow0 Hlt)) as [x Hx].
      rewrite (Generic_value_in_range hg g row x Hrow0 Hx).
      rewrite <- E in Hx.
      now rewrite (ListColumn_value_in_range hl l row x Hfit Hrow0 Hx).
    + rewrite (Generic_value_out_of_range hg g row Hge).
      rewrite ListColumn_value_out_of_range; try assumption; [exact I|].
      unfold ListColumn.rowCount, Generic.rowCount in *. now rewrite E.
Qed.

Lemma X12_variants_agree_on_every_row_witness :
  agree (fst (BoolVector.value BoolVector.LeftOperandFirst Examples.bools
                Examples.flag_stale 5))
        (Generic.value Examples.bools Examples.flag_vector 5)
  /\
  agree (ListColumn.value Examples.ints Examples.age_list 3)
        (Generic.value Examples.ints Examples.age_vector 3).
Proof.
  destruct X12_variants_agree_on_every_row as (Hb & Hl).
  split.
  - apply (Hb BoolVector.LeftOperandFirst Examples.bools Examples.bools
             Examples.flag_vector Examples.flag_stale 5). by_evaluation.
  - apply (Hl Z Examples.ints Examples.ints Examples.age_vector
             Examples.age_list 3); by_evaluation.
Defined.

(** ** The limit of the list specialisation *)

(** A target that the counter has passed, or that lies beyond [INT_MAX],
    is never met, and on a range long enough the counter overflows. *)
Lemma walk_overflow_unmet {T} (l : list T) : forall i row,
  0 <= i <= Platform.INT_MAX ->
  row < i \/ Platform.INT_MAX < row ->
  Platform.INT_MAX - i < Std.size l ->
  ListColumn.walk row i l = ListColumn.Overflow.
Proof.
  induction l as [|y l IH]; intros i row Hi Hrow Hlen.
  - rewrite size_nil in Hlen. lia.
  - rewrite size_cons in Hlen.
    simpl. rewrite to_size_t_small by (apply INT_MAX_is_size_t; lia).
    destruct (Z.eqb_spec i row) as [-> | Hne]; [lia|].
    destruct (Z.ltb_spec i Platform.INT_MAX) as [Hlt | Hge]; [|reflexivity].
    apply IH; lia.
Qed.

(** X13.  The traversal loops count in [int] while rows are [std::size_t].
    On a list of [INT_MAX] or more elements a [value(row)] call with [row]
    at or past the end overflows the counter before the traversal ends, and
    a valid row beyond [INT_MAX] in the first half of a list is not reached
    for the same reason: the behaviour is undefined, neither the element nor
    the [RangeException] is delivered. *)
Theorem X13_list_counter_limit :
  forall (T : Type) (h : store T) (c : ListColumn.Column) (row : Z),
    let l := deref h (ListColumn._pData c) in
    Platform.is_size_t row ->
    (Platform.INT_MAX < row -> row <= Std.size l / 2 ->
     ListColumn.value h c row = Undefined) /\
    (Platform.INT_MAX <= Std.size l -> Std.size l <= row ->
     ListColumn.value h c row = Undefined).
Proof.
  intros T h c row l [Hrow0 Hrow1]. pose proof (size_nonneg l) as Hl.
  unfold ListColumn.value. fold l. cbv zeta. split.
  - intros Hbig Hhalf.
    destruct (Z.leb_spec row (Std.size l / 2)) as [_ | Hgt]; [|lia].
    rewrite walk_overflow_unmet; [reflexivity | | lia |].
    + unfold Platform.INT_MAX. lia.
    + pose proof (Z.mul_div_le (Std.size l) 2). lia.
  - intros Hlong Hrow.
    assert (0 < Platform.INT_MAX) by (unfold Platform.INT_MAX; lia).
    destruct (Z.leb_spec row (Std.size l / 2)) as [Hhalf | _].
    { pose proof (Z.div_lt (Std.size l) 2). lia. }
    rewrite walk_overflow_unmet; [reflexivity | lia | | ].
    + destruct (Z.eq_dec row (Std.size l)) as [-> | Hne].
      * left. rewrite size_t_sub_no_borrow by lia. lia.
      * right. rewrite size_t_sub_borrow by lia. lia.
    + rewrite size_reverse. lia.
Qed.

Lemma long_column_size :
  Std.size (deref Examples.long_store
              (ListColumn._pData Examples.long_column)) = Platform.INT_MAX.
Proof.
  unfold Examples.long_store, Examples.long_column, deref.
  cbn [ListColumn._pData].
  rewrite lookup_total_singleton_eq.
  unfold Examples.long_list, Std.size.
  rewrite length_replicate. apply Z2Nat.id.
  unfold Platform.INT_MAX. lia.
Qed.

Lemma X13_list_counter_limit_witness :
  ListColumn.value Examples.long_store Examples.long_column Platform.INT_MAX
  = Undefined.
Proof.
  refine (proj2 (X13_list_counter_limit Z Examples.long_store
                   Examples.long_column Platform.INT_MAX _) _ _).
  - unfold Platform.is_size_t, Platform.INT_MAX, Platform.SIZE_MOD. lia.
  - rewrite long_column_size. lia.
  - rewrite long_column_size. lia.
Defined.

(** ** The defect of the list specialisation: an [int] counter for a
    [std::size_t] row *)

Section ListCounterOverflow.
Context {T : Type}.
Implicit Types (h : store T) (c : ListColumn.Column) (row : Z).

(** A row beyond [INT_MAX] in the first half of the list: the forward loop
    overflows its counter before it reaches the row. *)
Lemma ListColumn_forward_overflow h c row :
  Platform.INT_MAX < row ->
  row <= Std.size (deref h (ListColumn._pData c)) / 2 ->
  ListColumn.walk row 0 (deref h (ListColumn._pData c)) = ListColumn.Overflow /\
  ListColumn.value h c row = Undefined.
Proof.
  intros Hbig Hhalf.
  set (l := deref h (ListColumn._pData c)) in *.
  assert (Hw : ListColumn.walk row 0 l = ListColumn.Overflow).
  { apply walk_overflow_unmet.
    - unfold Platform.INT_MAX. lia.
    - now right.
    - pose proof (Z.mul_div_le (Std.size l) 2).
      unfold Platform.INT_MAX in *. lia. }
  split; [exact Hw|].
  unfold ListColumn.value. fold l. cbv zeta.
  destruct (Z.leb_spec row (Std.size l / 2)) as [_ | Hgt]; [|lia].
  now rewrite Hw.
Qed.

(** A row at or past the end of a list of [INT_MAX] or more elements: the
    backward loop overflows its counter before it reaches the front. *)
Lemma ListColumn_backward_overflow h c row :
  Platform.is_size_t row ->
  Platform.INT_MAX <= Std.size (deref h (ListColumn._pData c)) ->
  Std.size (deref h (ListColumn._pData c)) <= row ->
  ListColumn.walk
    (Platform.size_t_sub (Std.size (deref h (ListColumn._pData c))) row) 1
    (reverse (deref h (ListColumn._pData c))) = ListColumn.Overflow /\
  ListColumn.value h c row = Undefined.
Proof.
  intros [Hrow0 Hrow1] Hlong Hrow.
  set (l := deref h (ListColumn._pData c)) in *.
  pose proof (size_nonneg l) as Hl.
  assert (Hmax : 0 < Platform.INT_MAX) by (unfold Platform.INT_MAX; lia).
  assert (Hw : ListColumn.walk (Platform.size_t_sub (Std.size l) row) 1
                 (reverse l) = ListColumn.Overflow).
  { apply walk_overflow_unmet.
    - lia.
    - destruct (Z.eq_dec row (Std.size l)) as [-> | Hne].
      + left. rewrite size_t_sub_no_borrow by lia. lia.
      + right. rewrite size_t_sub_borrow by lia. lia.
    - rewrite size_reverse. lia. }
  split; [exact Hw|].
  unfold ListColumn.value. fold l. cbv zeta.
  destruct (Z.leb_spec row (Std.size l / 2)) as [Hhalf | _].
  - pose proof (Z.div_lt (Std.size l) 2). lia.
  - now rewrite Hw.
Qed.

End ListCounterOverflow.

Lemma huge_column_size :
  Std.size (deref Examples.huge_store
              (ListColumn._pData Examples.huge_column)) = 4294967298.
Proof.
  unfold Examples.huge_store, Examples.huge_column, deref.
  cbn [ListColumn._pData].
  rewrite lookup_total_singleton_eq.
  unfold Examples.huge_list, Std.size.
  rewrite length_replicate. apply Z2Nat.id. lia.
Qed.

Lemma huge_column_lookup (n : Z) :
  0 <= n < 4294967298 ->
  deref Examples.huge_store (ListColumn._pData Examples.huge_column)
    !! Z.to_nat n = Some 0.
Proof.
  intros Hn.
  unfold Examples.huge_store, Examples.huge_column, deref.
  cbn [ListColumn._pData].
  rewrite lookup_total_singleton_eq.
  unfold Examples.huge_list.
  apply lookup_replicate_2. lia.
Qed.

(** C1.  The claim fails in the list specialisation.  On a list of
    [2 * INT_MAX + 4] elements, row [INT_MAX + 2] is within
    [0, rowCount()) and the list holds an element there, but [value] does
    not return it: the row lies in the first half, the forward loop counts
    in [int], and the counter overflows at [INT_MAX] before it reaches the
    row. *)
Theorem C1_list_valid_row_not_returned :
  0 <= 2147483649
    < ListColumn.rowCount Examples.huge_store Examples.huge_column /\
  deref Examples.huge_store (ListColumn._pData Examples.huge_column)
    !! Z.to_nat 2147483649 = Some 0 /\
  ListColumn.value Examples.huge_store Examples.huge_column 2147483649
  = Undefined /\
  ListColumn.value Examples.huge_store Examples.huge_column 2147483649
  <> Ok 0.
Proof.
  assert (Hv : ListColumn.value Examples.huge_store Examples.huge_column
                 2147483649 = Undefined).
  { apply ListColumn_forward_overflow.
    - unfold Platform.INT_MAX. lia.
    - rewrite huge_column_size.
      change (4294967298 / 2) with 2147483649. lia. }
  split; [|split; [|split]].
  - unfold ListColumn.rowCount. rewrite huge_column_size. lia.
  - apply huge_column_lookup. lia.
  - exact Hv.
  - rewrite Hv. discriminate.
Qed.

(** C2.  The claim fails in the list specialisation.  On a list of
    [2 * INT_MAX + 4] elements the row [size + 5] is past [rowCount()], but
    [value] does not throw a [RangeException]: [size - row] wraps around to
    [2^64 - 5], the backward loop counts in [int] from one, and the counter
    overflows at [INT_MAX] long before the loop ends. *)
Theorem C2_list_out_of_range_not_thrown :
  Platform.is_size_t 4294967303 /\
  ListColumn.rowCount Examples.huge_store Examples.huge_column
  <= 4294967303 /\
  Platform.size_t_sub
    (ListColumn.rowCount Examples.huge_store Examples.huge_column) 4294967303
  = 18446744073709551611 /\
  ListColumn.value Examples.huge_store Examples.huge_column 4294967303
  = Undefined /\
  ~ is_RangeException
      (ListColumn.value Examples.huge_store Examples.huge_column 4294967303).
Proof.
  assert (Hsz : Platform.is_size_t 4294967303)
    by (unfold Platform.is_size_t, Platform.SIZE_MOD; lia).
  assert (Hv : ListColumn.value Examples.huge_store Examples.huge_column
                 4294967303 = Undefined).
  { apply ListColumn_backward_overflow; [exact Hsz | |];
      rewrite huge_column_size; unfold Platform.INT_MAX; lia. }
  split; [exact Hsz|]. split; [|split; [|split]].
  - unfold ListColumn.rowCount. rewrite huge_column_size. lia.
  - unfold ListColumn.rowCount. rewrite huge_column_size. reflexivity.
  - exact Hv.
  - rewrite Hv. intros [msg Hmsg]. discriminate.
Qed.

(** C5.  The claim fails on long lists, in both halves, on a list of
    [2 * INT_MAX + 4] elements.  Row [INT_MAX + 1] is below the size and
    lies in the first half, and the forward loop overflows its [int]
    counter instead of finding the element.  Row [size + 6] is past the
    size, [size - row] wraps around, and the backward loop overflows its
    counter instead of running off the end, so the final [throw] is not
    reached. *)
Theorem C5_list_traversal_counter_overflow :
  (2147483648 < Std.size (deref Examples.huge_store
                            (ListColumn._pData Examples.huge_column)) /\
   ListColumn.walk 2147483648 0
     (deref Examples.huge_store (ListColumn._pData Examples.huge_column))
   = ListColumn.Overflow /\
   ListColumn.value Examples.huge_store Examples.huge_column 2147483648
   = Undefined)
  /\
  (Std.size (deref Examples.huge_store
               (ListColumn._pData Examples.huge_column)) <= 4294967304 /\
   ListColumn.walk
     (Platform.size_t_sub
        (Std.size (deref Examples.huge_store
                     (ListColumn._pData Examples.huge_column))) 4294967304) 1
     (reverse (deref Examples.huge_store
                 (ListColumn._pData Examples.huge_column)))
   = ListColumn.Overflow /\
   ListColumn.value Examples.huge_store Examples.huge_column 4294967304
   = Undefined).
Proof.
  split.
  - split; [rewrite huge_column_size; lia|].
    apply ListColumn_forward_overflow.
    + unfold Platform.INT_MAX. lia.
    + rewrite huge_column_size.
      change (4294967298 / 2) with 2147483649. lia.
  - split; [rewrite huge_column_size; lia|].
    apply ListColumn_backward_overflow.
    + unfold Platform.is_size_t, Platform.SIZE_MOD. lia.
    + rewrite huge_column_size. unfold Platform.INT_MAX. lia.
    + rewrite huge_column_size. lia.
Qed.
